(** * PlayDiffusion inference script: orchestration contract

    A shallow embedding of [infer_play_diffusion.py].  The script owns no
    algorithm: it parses the command line, constructs two model objects and
    forwards arguments to them.  The models (NeMo ASR, PlayDiffusion) and the
    audio writer (soundfile) are external, so every call to them is an
    uninterpreted request of a small free monad; a handler supplies the
    answers (or an exception) and threads an arbitrary world state, which
    lets a collaborator be stateful or random.

    Strings are byte strings holding UTF-8; the only characters the script
    inspects ([,.?!] and [/]) are ASCII, so byte-wise and code-point-wise
    processing agree.  Python floats are binary64 and are [PrimFloat.float]. *)

From Stdlib Require Import String Ascii List ZArith Bool PrimFloat Lia.
Import ListNotations.
Set Warnings "-inexact-float".
Local Open Scope string_scope.
Local Open Scope list_scope.

(** ** String functions of the Python standard library used by the script *)

Module PyStr.

Fixpoint mem (c : ascii) (chars : string) : bool :=
  match chars with
  | EmptyString => false
  | String d rest => Ascii.eqb c d || mem c rest
  end.

(** [s.lstrip(chars)] *)
Fixpoint lstrip (chars s : string) : string :=
  match s with
  | EmptyString => EmptyString
  | String c rest => if mem c chars then lstrip chars rest else s
  end.

(** [s.rstrip(chars)] *)
Fixpoint rstrip (chars s : string) : string :=
  match s with
  | EmptyString => EmptyString
  | String c rest =>
      match rstrip chars rest with
      | EmptyString => if mem c chars then EmptyString else String c EmptyString
      | kept => String c kept
      end
  end.

(** [s.strip(chars)]: leading then trailing characters of [chars] go. *)
Definition strip (chars s : string) : string := rstrip chars (lstrip chars s).

(** [c * n] for a one-character string. *)
Fixpoint repeat (c : ascii) (n : nat) : string :=
  match n with
  | O => EmptyString
  | S m => String c (repeat c m)
  end.

(** [posixpath.basename]: [p[p.rfind('/') + 1:]].  [cur] is the suffix
    that follows the last slash met so far. *)
Fixpoint basename_from (cur s : string) : string :=
  match s with
  | EmptyString => cur
  | String c rest =>
      if Ascii.eqb c "/" then basename_from rest rest else basename_from cur rest
  end.

Definition basename (p : string) : string := basename_from p p.

(** Python truthiness of an optional string: [None] and the empty string
    are falsy. *)
Definition truthy (o : option string) : bool :=
  match o with
  | None => false
  | Some EmptyString => false
  | Some (String _ _) => true
  end.

Definition all_in (chars s : string) : Prop :=
  forall c, In c (list_ascii_of_string s) -> mem c chars = true.

Definition first_char (s : string) : option ascii :=
  match s with EmptyString => None | String c _ => Some c end.

Fixpoint last_char (s : string) : option ascii :=
  match s with
  | EmptyString => None
  | String c EmptyString => Some c
  | String _ rest => last_char rest
  end.

Definition edge_free (chars : string) (o : option ascii) : Prop :=
  match o with None => True | Some c => mem c chars = false end.

(** [t] is [s] with a maximal run of [chars] removed at each edge. *)
Definition trimmed (chars s t : string) : Prop :=
  (exists pre post, s = (pre ++ t ++ post)%string /\ all_in chars pre /\ all_in chars post)
  /\ edge_free chars (first_char t) /\ edge_free chars (last_char t).

End PyStr.

(** ** Data exchanged with the collaborators *)

(** Modelled from the spec: a word entry of NeMo's [timestamp['word']], of
    which the script reads the keys [word], [start] and [end]. *)
Record RawWord := { raw_word : string; raw_start : float; raw_end : float }.

(** Modelled from the spec: one NeMo hypothesis, of which the script reads
    [.text] and [.timestamp['word']]. *)
Record AsrHypothesis := { hyp_text : string; hyp_timestamp_word : list RawWord }.

(** The dict built by [run_asr] for each word. *)
Record WordTiming := { word : string; start : float; end_ : float }.

(** [InpaintInput(...)] with the keywords the script passes. *)
Record InpaintInput := {
  input_text : string;
  output_text : string;
  input_word_times : list WordTiming;
  audio : string;
  num_steps : Z;
  init_temp : float;
  init_diversity : float;
  guidance : float;
  rescale : float;
  topk : Z
}.

(** [TTSInput(output_text=..., voice=...)]. *)
Record TTSInput := { tts_output_text : string; tts_voice : string }.

(** Modelled from the spec: the pair [(sample_rate, samples)] returned by
    [PlayDiffusion.inpaint] and [PlayDiffusion.tts]; the script reads
    [output_audio[0]] and [output_audio[1]]. *)
Definition Waveform : Type := Z * list float.

(** References to the two model objects. *)
Record Inpainter := { inpainter_ref : nat }.
Record ASRModel := { asr_model_ref : nat }.

Inductive Exn :=
| ValueError (msg : string)
| IndexError (msg : string)
| SystemExit (code : Z)
| CollaboratorError (what : string).

(** What [print] receives: a formatted line, or a prefix followed by the
    [repr] of the word list (kept symbolic). *)
Inductive Printed :=
| Line (s : string)
| LineRepr (pre : string) (v : list WordTiming).

(** ** Requests to the collaborators *)

Inductive CallE : Type -> Type :=
| PlayDiffusion_new : CallE Inpainter
| restore_from (path : string) : CallE ASRModel
| transcribe (m : ASRModel) (paths : list string) (timestamps : bool)
  : CallE (list AsrHypothesis)
| inpaint (p : Inpainter) (req : InpaintInput) : CallE Waveform
| tts (p : Inpainter) (req : TTSInput) : CallE Waveform
| sf_write (file : string) (data : list float) (samplerate : Z)
           (subtype : string) (format : option string) : CallE unit.

(** ** Programs *)

Inductive Prog (A : Type) : Type :=
| Ret (a : A)
| Raise (e : Exn)
| Print (line : Printed) (k : Prog A)
| Call {X : Type} (c : CallE X) (k : X -> Prog A).

Arguments Ret {A} a.
Arguments Raise {A} e.
Arguments Print {A} line k.
Arguments Call {A X} c k.

Fixpoint bind {A B : Type} (p : Prog A) (f : A -> Prog B) : Prog B :=
  match p with
  | Ret a => f a
  | Raise e => Raise e
  | Print l k => Print l (bind k f)
  | Call c k => Call c (fun x => bind (k x) f)
  end.

Definition call {X : Type} (c : CallE X) : Prog X := Call c Ret.
Definition print (s : string) : Prog unit := Print (Line s) (Ret tt).
Definition print_repr (pre : string) (v : list WordTiming) : Prog unit :=
  Print (LineRepr pre v) (Ret tt).

Declare Scope prog_scope.
Delimit Scope prog_scope with prog.
Notation "x <- p ;; q" := (bind p (fun x => q))
  (at level 61, p at next level, right associativity) : prog_scope.
Notation "' pat <- p ;; q" := (bind p (fun x => match x with pat => q end))
  (at level 61, pat pattern, p at next level, right associativity) : prog_scope.
Notation "p ;; q" := (bind p (fun _ => q))
  (at level 61, right associativity) : prog_scope.
Local Open Scope prog_scope.

(** ** Observable behaviour *)

Inductive Event :=
| EvPrint (line : Printed)
| EvNew (r : Exn + Inpainter)
| EvRestore (path : string) (r : Exn + ASRModel)
| EvTranscribe (m : ASRModel) (paths : list string) (timestamps : bool)
               (r : Exn + list AsrHypothesis)
| EvInpaint (p : Inpainter) (req : InpaintInput) (r : Exn + Waveform)
| EvTTS (p : Inpainter) (req : TTSInput) (r : Exn + Waveform)
| EvWrite (file : string) (data : list float) (samplerate : Z)
          (subtype : string) (format : option string) (r : Exn + unit).

Definition event_of {X : Type} (c : CallE X) : Exn + X -> Event :=
  match c in CallE X return Exn + X -> Event with
  | PlayDiffusion_new => EvNew
  | restore_from path => EvRestore path
  | transcribe m paths ts => EvTranscribe m paths ts
  | inpaint p req => EvInpaint p req
  | tts p req => EvTTS p req
  | sf_write file data sr st fmt => EvWrite file data sr st fmt
  end.

Definition Handler (W : Type) : Type :=
  forall X : Type, CallE X -> W -> (Exn + X) * W.

Definition Outcome (W A : Type) : Type := list Event * (Exn + A) * W.

Definition trace {W A} (o : Outcome W A) : list Event := fst (fst o).
Definition result {W A} (o : Outcome W A) : Exn + A := snd (fst o).
Definition final {W A} (o : Outcome W A) : W := snd o.

(** An exception is never caught by the script: it ends the run. *)
Fixpoint run {W A : Type} (h : Handler W) (p : Prog A) (w : W) : Outcome W A :=
  match p with
  | Ret a => ([], inr a, w)
  | Raise e => ([], inl e, w)
  | Print l k =>
      let o := run h k w in (EvPrint l :: trace o, result o, final o)
  | Call c k =>
      match h _ c w with
      | (inl e, w') => ([event_of c (inl e)], inl e, w')
      | (inr x, w') =>
          let o := run h (k x) w' in
          (event_of c (inr x) :: trace o, result o, final o)
      end
  end.

(** ** The orchestrator class [PlayDiffusionInference] *)

Record PlayDiffusionInference := {
  inpainter : Inpainter;
  asr_model : ASRModel
}.

Definition default_asr_model : string :=
  "modeldata/audio/asr/parakeet/parakeet-tdt-0.6b-v2.nemo".

(** [__init__]: both models are built when the object is constructed. *)
Definition init (asr_model_path : string) : Prog PlayDiffusionInference :=
  i <- call PlayDiffusion_new ;;
  m <- call (restore_from asr_model_path) ;;
  print ("✅ 模型加载完成: " ++ asr_model_path)%string ;;
  Ret {| inpainter := i; asr_model := m |}.

(** [l[0]] *)
Definition item0 {A : Type} (l : list A) : Prog A :=
  match l with
  | [] => Raise (IndexError "list index out of range")
  | x :: _ => Ret x
  end.

(** The dict comprehension body of [run_asr]. *)
Definition word_time (w : RawWord) : WordTiming :=
  {| word := PyStr.strip ",.?!" (raw_word w);
     start := raw_start w;
     end_ := raw_end w |}.

Definition run_asr (self : PlayDiffusionInference) (audio_path : string)
  : Prog (string * string * list WordTiming) :=
  print ("🎤 运行ASR识别: " ++ audio_path)%string ;;
  output <- call (transcribe (asr_model self) [audio_path] true) ;;
  first <- item0 output ;;
  let word_times := map word_time (hyp_timestamp_word first) in
  first' <- item0 output ;;
  let text := hyp_text first' in
  print ("📝 识别结果: " ++ text)%string ;;
  Ret (text, text, word_times).

(** Keyword arguments that have a default in [inpaint_audio]'s signature:
    [None] stands for a keyword the caller left out. *)
Record Kwargs := {
  kw_num_steps : option Z;
  kw_init_temp : option float;
  kw_init_diversity : option float;
  kw_guidance : option float;
  kw_rescale : option float;
  kw_topk : option Z
}.

Definition no_kwargs : Kwargs :=
  {| kw_num_steps := None; kw_init_temp := None; kw_init_diversity := None;
     kw_guidance := None; kw_rescale := None; kw_topk := None |}.

Definition or_default {A : Type} (o : option A) (d : A) : A :=
  match o with Some a => a | None => d end.

(** [inpaint_audio] from the call of the inpainter on (source lines 95-119),
    given the triple that [run_asr] returned. *)
Definition inpaint_after_asr (self : PlayDiffusionInference)
    (audio_path output_text : string) (kw : Kwargs)
    (output_path : option string)
    (asr : string * string * list WordTiming) : Prog string :=
  let '(input_text, _, word_times) := asr in
  output_audio <- call (inpaint (inpainter self)
    {| input_text := input_text;
       output_text := output_text;
       input_word_times := word_times;
       audio := audio_path;
       num_steps := or_default (kw_num_steps kw) 30%Z;
       init_temp := or_default (kw_init_temp kw) 1.0%float;
       init_diversity := or_default (kw_init_diversity kw) 1.0%float;
       guidance := or_default (kw_guidance kw) 0.5%float;
       rescale := or_default (kw_rescale kw) 0.7%float;
       topk := or_default (kw_topk kw) 25%Z |}) ;;
  print "执行成功" ;;
  let output_path :=
    match output_path with
    | None => ("output_inpaint_" ++ PyStr.basename audio_path)%string
    | Some p => p
    end in
  print ("💾 保存输出音频: " ++ output_path)%string ;;
  call (sf_write output_path (snd output_audio) (fst output_audio)
          "PCM_16" None) ;;
  Ret output_path.

Definition inpaint_audio (self : PlayDiffusionInference)
    (audio_path output_text : string) (kw : Kwargs)
    (output_path : option string) : Prog string :=
  print "🔧 开始音频修复..." ;;
  print ("📁 输入音频: " ++ audio_path)%string ;;
  print ("📝 目标文本: " ++ output_text)%string ;;
  asr <- run_asr self audio_path ;;
  inpaint_after_asr self audio_path output_text kw output_path asr.

Definition text_to_speech (self : PlayDiffusionInference)
    (text voice_audio_path : string) (output_path : option string)
  : Prog string :=
  print "🗣️ 开始文本转语音..." ;;
  print ("📝 输入文本: " ++ text)%string ;;
  print ("🎵 参考语音: " ++ voice_audio_path)%string ;;
  output_audio <- call (tts (inpainter self)
    {| tts_output_text := text; tts_voice := voice_audio_path |}) ;;
  let output_path :=
    match output_path with
    | None => ("output_tts_" ++ PyStr.basename voice_audio_path)%string
    | Some p => p
    end in
  print ("💾 保存输出音频: " ++ output_path)%string ;;
  call (sf_write output_path (snd output_audio) (fst output_audio)
          "PCM_16" None) ;;
  Ret output_path.

Definition run_complete_pipeline (self : PlayDiffusionInference)
    (audio_path target_text : string) (output_path : option string)
    (kwargs : Kwargs) : Prog string :=
  print "🚀 开始完整音频编辑流程" ;;
  print (PyStr.repeat "=" 50) ;;
  result <- inpaint_audio self audio_path target_text kwargs output_path ;;
  print (PyStr.repeat "=" 50) ;;
  print "✅ 音频编辑完成!" ;;
  Ret result.

(** ** The command line *)

(** The flags of one invocation after argparse has split them and applied
    each flag's [type]; [None] is an omitted flag. *)
Record CommandLine := {
  cl_mode : option string;
  cl_audio : option string;
  cl_text : option string;
  cl_voice : option string;
  cl_output : option string;
  cl_asr_model : option string;
  cl_num_steps : option Z;
  cl_init_temp : option float;
  cl_init_diversity : option float;
  cl_guidance : option float;
  cl_rescale : option float;
  cl_topk : option Z
}.

(** The namespace [args] returned by [parser.parse_args()]. *)
Record Namespace := {
  args_mode : string;
  args_audio : string;
  args_text : option string;
  args_voice : option string;
  args_output : option string;
  args_asr_model : string;
  args_num_steps : Z;
  args_init_temp : float;
  args_init_diversity : float;
  args_guidance : float;
  args_rescale : float;
  args_topk : Z
}.

Definition mode_choices : list string := ["inpaint"; "tts"; "asr"].

(** The parser declared in [main]: [--mode] is checked against its choices,
    [--audio] is required, every other flag falls back to its default.  A
    rejected command line ends the process with status 2. *)
Definition parse_args (cl : CommandLine) : Exn + Namespace :=
  let mode := or_default (cl_mode cl) "inpaint" in
  if negb (existsb (String.eqb mode) mode_choices) then inl (SystemExit 2)
  else
    match cl_audio cl with
    | None => inl (SystemExit 2)
    | Some a =>
        inr {| args_mode := mode;
               args_audio := a;
               args_text := cl_text cl;
               args_voice := cl_voice cl;
               args_output := cl_output cl;
               args_asr_model := or_default (cl_asr_model cl) default_asr_model;
               args_num_steps := or_default (cl_num_steps cl) 30%Z;
               args_init_temp := or_default (cl_init_temp cl) 1.0%float;
               args_init_diversity := or_default (cl_init_diversity cl) 1.0%float;
               args_guidance := or_default (cl_guidance cl) 0.5%float;
               args_rescale := or_default (cl_rescale cl) 0.7%float;
               args_topk := or_default (cl_topk cl) 25%Z |}
    end.

Definition main_asr (inference : PlayDiffusionInference) (args : Namespace)
  : Prog unit :=
  '(text, _, word_times) <- run_asr inference (args_audio args) ;;
  print ("识别文本: " ++ text)%string ;;
  print_repr "词时间戳: " word_times.

Definition main_inpaint (inference : PlayDiffusionInference) (args : Namespace)
  : Prog unit :=
  match args_text args with
  | None | Some EmptyString =>
      Raise (ValueError "inpaint模式需要指定 --text 参数")
  | Some text =>
      result <- run_complete_pipeline inference (args_audio args) text
                  (args_output args)
                  {| kw_num_steps := Some (args_num_steps args);
                     kw_init_temp := Some (args_init_temp args);
                     kw_init_diversity := Some (args_init_diversity args);
                     kw_guidance := Some (args_guidance args);
                     kw_rescale := Some (args_rescale args);
                     kw_topk := Some (args_topk args) |} ;;
      print ("输出文件: " ++ result)%string
  end.

Definition main_tts (inference : PlayDiffusionInference) (args : Namespace)
  : Prog unit :=
  match args_text args with
  | None | Some EmptyString =>
      Raise (ValueError "tts模式需要指定 --text 参数")
  | Some text =>
      match args_voice args with
      | None | Some EmptyString =>
          Raise (ValueError "tts模式需要指定 --voice 参数")
      | Some voice =>
          result <- text_to_speech inference text voice (args_output args) ;;
          print ("输出文件: " ++ result)%string
      end
  end.

(** [main], which the script runs whenever it is given at least one
    argument (with none it runs a fixed text-to-speech self-test instead,
    which is not modelled).  The orchestrator is constructed before the
    mode is looked at. *)
Definition main (cl : CommandLine) : Prog unit :=
  match parse_args cl with
  | inl e => Raise e
  | inr args =>
      inference <- init (args_asr_model args) ;;
      if String.eqb (args_mode args) "asr" then main_asr inference args
      else if String.eqb (args_mode args) "inpaint" then
        main_inpaint inference args
      else if String.eqb (args_mode args) "tts" then main_tts inference args
      else Ret tt
  end.

(** ** The script's [__main__] block *)

Definition self_test_text : string :=
  "Hey, Erika0920, your instant avatar is ready. Fucking you body. Also, click the feedback button to share what you think. Hope you enjoy. Hey, Erika0920".

Definition self_test_voice : string :=
  "notebook/data_source/audio/doc_audio/干净_en.mp3".

(** [argc] is [len(sys.argv)] (the program name counts) and [cl] is what
    the parser makes of [sys.argv[1:]].  Without arguments the script runs
    a fixed text-to-speech request on a default-constructed orchestrator
    and never calls [main]. *)
Definition script (argc : nat) (cl : CommandLine) : Prog unit :=
  if Nat.eqb argc 1 then
    inference <- init default_asr_model ;;
    text_to_speech inference self_test_text self_test_voice
      (Some "output_tts_test.wav") ;;
    Ret tt
  else main cl.

(** ** Reading traces *)

Definition is_print (e : Event) : bool :=
  match e with EvPrint _ => true | _ => false end.

(** Any request to a collaborator, constructions included. *)
Definition is_call (e : Event) : bool := negb (is_print e).

Definition is_construction (e : Event) : bool :=
  match e with EvNew _ | EvRestore _ _ => true | _ => false end.

Definition is_transcribe (e : Event) : bool :=
  match e with EvTranscribe _ _ _ _ => true | _ => false end.

Definition is_inpaint (e : Event) : bool :=
  match e with EvInpaint _ _ _ => true | _ => false end.

Definition is_tts (e : Event) : bool :=
  match e with EvTTS _ _ _ => true | _ => false end.

Definition is_write (e : Event) : bool :=
  match e with EvWrite _ _ _ _ _ _ => true | _ => false end.

(** A request made through a constructed model, or a file write. *)
Definition is_use (e : Event) : bool :=
  is_transcribe e || is_inpaint e || is_tts e || is_write e.

Definition count (f : Event -> bool) (tr : list Event) : nat :=
  length (filter f tr).

Definition calls (tr : list Event) : list Event := filter is_call tr.

(** ** Command lines that differ in one flag *)

Definition with_audio (v : option string) (cl : CommandLine) : CommandLine :=
  {| cl_mode := cl_mode cl; cl_audio := v; cl_text := cl_text cl;
     cl_voice := cl_voice cl; cl_output := cl_output cl;
     cl_asr_model := cl_asr_model cl; cl_num_steps := cl_num_steps cl;
     cl_init_temp := cl_init_temp cl;
     cl_init_diversity := cl_init_diversity cl;
     cl_guidance := cl_guidance cl; cl_rescale := cl_rescale cl;
     cl_topk := cl_topk cl |}.

Definition with_text (v : option string) (cl : CommandLine) : CommandLine :=
  {| cl_mode := cl_mode cl; cl_audio := cl_audio cl; cl_text := v;
     cl_voice := cl_voice cl; cl_output := cl_output cl;
     cl_asr_model := cl_asr_model cl; cl_num_steps := cl_num_steps cl;
     cl_init_temp := cl_init_temp cl;
     cl_init_diversity := cl_init_diversity cl;
     cl_guidance := cl_guidance cl; cl_rescale := cl_rescale cl;
     cl_topk := cl_topk cl |}.

Definition with_voice (v : option string) (cl : CommandLine) : CommandLine :=
  {| cl_mode := cl_mode cl; cl_audio := cl_audio cl; cl_text := cl_text cl;
     cl_voice := v; cl_output := cl_output cl;
     cl_asr_model := cl_asr_model cl; cl_num_steps := cl_num_steps cl;
     cl_init_temp := cl_init_temp cl;
     cl_init_diversity := cl_init_diversity cl;
     cl_guidance := cl_guidance cl; cl_rescale := cl_rescale cl;
     cl_topk := cl_topk cl |}.

Definition with_mode (v : option string) (cl : CommandLine) : CommandLine :=
  {| cl_mode := v; cl_audio := cl_audio cl; cl_text := cl_text cl;
     cl_voice := cl_voice cl; cl_output := cl_output cl;
     cl_asr_model := cl_asr_model cl; cl_num_steps := cl_num_steps cl;
     cl_init_temp := cl_init_temp cl;
     cl_init_diversity := cl_init_diversity cl;
     cl_guidance := cl_guidance cl; cl_rescale := cl_rescale cl;
     cl_topk := cl_topk cl |}.

(** ** What the specification expects, in its own words *)

Module Spec.

(** A mode-specific required argument is missing (or falsy). *)
Definition missing_required (args : Namespace) : bool :=
  (String.eqb (args_mode args) "inpaint" && negb (PyStr.truthy (args_text args)))
  || (String.eqb (args_mode args) "tts"
      && (negb (PyStr.truthy (args_text args))
          || negb (PyStr.truthy (args_voice args)))).

(** The message naming the missing flag. *)
Definition usage_error (args : Namespace) : Exn :=
  if String.eqb (args_mode args) "inpaint" then
    ValueError "inpaint模式需要指定 --text 参数"
  else if PyStr.truthy (args_text args) then
    ValueError "tts模式需要指定 --voice 参数"
  else ValueError "tts模式需要指定 --text 参数".

(** [output_inpaint_<basename(audio)>], [output_tts_<basename(voice)>],
    or [--output] when it is given. *)
Definition output_path (args : Namespace) : string :=
  match args_output args with
  | Some p => p
  | None =>
      if String.eqb (args_mode args) "tts" then
        ("output_tts_" ++ PyStr.basename (or_default (args_voice args) ""))%string
      else ("output_inpaint_" ++ PyStr.basename (args_audio args))%string
  end.

(** The invocation is rejected for a missing argument: the two models
    are constructed, nothing is asked of them and nothing is written; the
    usage error is raised unless a construction itself failed. *)
Definition rejected_after_construction {W : Type} (args : Namespace)
    (o : Outcome W unit) : Prop :=
  count is_use (trace o) = 0
  /\ ((exists i m,
          calls (trace o)
          = [EvNew (inr i); EvRestore (args_asr_model args) (inr m)]
          /\ result o = inl (usage_error args))
      \/ (exists e,
            result o = inl e
            /\ (calls (trace o) = [EvNew (inl e)]
                \/ exists i,
                    calls (trace o)
                    = [EvNew (inr i);
                       EvRestore (args_asr_model args) (inl e)]))).

End Spec.

(** ** Test doubles *)

Module Stub.

Definition hello : AsrHypothesis :=
  {| hyp_text := "hello, world.";
     hyp_timestamp_word :=
       [ {| raw_word := "hello,"; raw_start := 1.0; raw_end := 1.5 |};
         {| raw_word := "world."; raw_start := 1.5; raw_end := 2.25 |} ] |}.

Definition wave : Waveform := (16000%Z, [0.0; 0.25; -0.25]%float).

(** Every collaborator answers; the world counts the requests served. *)
Definition handler : Handler nat :=
  fun X c n =>
    match c in CallE X return (Exn + X) * nat with
    | PlayDiffusion_new => (inr {| inpainter_ref := n |}, S n)
    | restore_from _ => (inr {| asr_model_ref := n |}, S n)
    | transcribe _ _ _ => (inr [hello], S n)
    | inpaint _ _ => (inr wave, S n)
    | tts _ _ => (inr wave, S n)
    | sf_write _ _ _ _ _ => (inr tt, S n)
    end.

Definition self : PlayDiffusionInference :=
  {| inpainter := {| inpainter_ref := 0 |};
     asr_model := {| asr_model_ref := 1 |} |}.

Definition cl (mode : string) (text voice output : option string)
  : CommandLine :=
  {| cl_mode := Some mode; cl_audio := Some "data/in.wav";
     cl_text := text; cl_voice := voice; cl_output := output;
     cl_asr_model := None; cl_num_steps := None; cl_init_temp := None;
     cl_init_diversity := None; cl_guidance := None; cl_rescale := None;
     cl_topk := None |}.

End Stub.

(** ** Collaborators that answer *)

(** No request is answered with an exception. *)
Definition answers {W : Type} (h : Handler W) : Prop :=
  forall (X : Type) (c : CallE X) (w : W),
    exists x w', h X c w = (inr x, w').

(** Every transcription returns at least one hypothesis. *)
Definition hears_speech {W : Type} (h : Handler W) : Prop :=
  forall m paths ts w,
    exists hyp rest w',
      h _ (transcribe m paths ts) w = (inr (hyp :: rest), w').

(** ** The container that a write asks for *)

Module Soundfile.






End Soundfile.


(** * Properties *)

(** ** Trimming *)

Section Trimming.

Variable chars : string.

Lemma all_in_empty : PyStr.all_in chars EmptyString.
Proof. intros c []. Qed.

Lemma all_in_cons (c : ascii) (s : string) :
  PyStr.mem c chars = true -> PyStr.all_in chars s ->
  PyStr.all_in chars (String c s).
Proof.
  intros Hc Hs d [<- | Hd]; [exact Hc | exact (Hs d Hd)].
Qed.

Lemma lstrip_split (s : string) :
  exists pre, s = (pre ++ PyStr.lstrip chars s)%string /\ PyStr.all_in chars pre.
Proof.
  induction s as [|c rest [pre [Heq Hpre]]]; simpl.
  - exists EmptyString. split; [reflexivity | apply all_in_empty].
  - destruct (PyStr.mem c chars) eqn:Hc.
    + exists (String c pre). split.
      * simpl. now rewrite <- Heq.
      * now apply all_in_cons.
    + exists EmptyString. split; [reflexivity | apply all_in_empty].
Qed.

Lemma lstrip_first (s : string) :
  PyStr.edge_free chars (PyStr.first_char (PyStr.lstrip chars s)).
Proof.
  induction s as [|c rest IH]; simpl; [exact I|].
  destruct (PyStr.mem c chars) eqn:Hc; [exact IH | exact Hc].
Qed.

Lemma rstrip_split (s : string) :
  exists post, s = (PyStr.rstrip chars s ++ post)%string /\ PyStr.all_in chars post.
Proof.
  induction s as [|c rest [post [Heq Hpost]]]; simpl.
  - exists EmptyString. split; [reflexivity | apply all_in_empty].
  - destruct (PyStr.rstrip chars rest) as [|a kept] eqn:Hr.
    + simpl in Heq. subst post.
      destruct (PyStr.mem c chars) eqn:Hc.
      * exists (String c rest). split; [reflexivity | now apply all_in_cons].
      * exists rest. split; [reflexivity | exact Hpost].
    + exists post. split; [simpl; now rewrite Heq at 1 | exact Hpost].
Qed.

Lemma rstrip_last (s : string) :
  PyStr.edge_free chars (PyStr.last_char (PyStr.rstrip chars s)).
Proof.
  induction s as [|c rest IH]; simpl; [exact I|].
  destruct (PyStr.rstrip chars rest) as [|a kept] eqn:Hr.
  - destruct (PyStr.mem c chars) eqn:Hc; simpl; [exact I | exact Hc].
  - exact IH.
Qed.

Lemma rstrip_first (s : string) :
  PyStr.edge_free chars (PyStr.first_char s) ->
  PyStr.edge_free chars (PyStr.first_char (PyStr.rstrip chars s)).
Proof.
  destruct s as [|c rest]; simpl; [trivial|]. intros Hc.
  destruct (PyStr.rstrip chars rest); [rewrite Hc|]; exact Hc.
Qed.

Lemma strip_trimmed (s : string) : PyStr.trimmed chars s (PyStr.strip chars s).
Proof.
  unfold PyStr.trimmed, PyStr.strip.
  destruct (lstrip_split s) as [pre [Hs Hpre]].
  destruct (rstrip_split (PyStr.lstrip chars s)) as [post [Hl Hpost]].
  repeat split.
  - exists pre, post. repeat split; try assumption.
    rewrite <- Hl. exact Hs.
  - apply rstrip_first, lstrip_first.
  - apply rstrip_last.
Qed.

End Trimming.

(** ** Running a sequence *)

Lemma run_bind {W A B : Type} (h : Handler W) (p : Prog A) (f : A -> Prog B)
    (w : W) :
  run h (bind p f) w =
  match result (run h p w) with
  | inl e => (trace (run h p w), inl e, final (run h p w))
  | inr a =>
      let o := run h (f a) (final (run h p w)) in
      (trace (run h p w) ++ trace o, result o, final o)
  end.
Proof.
  revert w. induction p as [a | e | l k IH | X c k IH]; intros w; simpl.
  - now destruct (run h (f a) w) as [[tr r] w'].
  - reflexivity.
  - rewrite IH. unfold trace, result, final; simpl.
    now destruct (snd (fst (run h k w))).
  - destruct (h X c w) as [[e | x] w']; [reflexivity|].
    rewrite IH. unfold trace, result, final; simpl.
    now destruct (snd (fst (run h (k x) w'))).
Qed.

(** ** Symbolic execution against an arbitrary handler *)

Ltac reduce :=
  cbn -[String.append PyStr.repeat PyStr.basename PyStr.strip item0] in *.

(** Runs the program in the goal or in a hypothesis, splitting on each
    answer of the handler [h] and on each indexed list. *)
Ltac exec h :=
  unfold trace, result, final in *;
  repeat (reduce;
    match goal with
    | H : context [h ?X ?c ?w] |- _ => destruct (h X c w) as [[?e | ?x] ?w']
    | |- context [h ?X ?c ?w] => destruct (h X c w) as [[?e | ?x] ?w']
    | H : context [item0 ?l] |- _ => is_var l; destruct l; cbn [item0] in *
    | |- context [item0 ?l] => is_var l; destruct l; cbn [item0] in *
    end);
  reduce.

(** From [H : e1 :: ... :: en :: [] = pre ++ ev :: post], the cases in
    which [ev] is one of the [ei]. *)
Ltac locate H :=
  repeat match type of H with
    | _ :: _ = ?pre ++ _ :: _ =>
        destruct pre as [|? pre]; cbn [app] in H;
        [ first [ discriminate H | injection H as ? H ]
        | injection H as ? H ]
    | [] = ?pre ++ _ :: _ => destruct pre; discriminate H
    end.

(** From [H : In ev [e1; ...; en]], the cases in which [ev] is an [ei]. *)
Ltac member H :=
  cbn [In] in H;
  repeat match type of H with
    | _ \/ _ => destruct H as [H | H]
    | False => destruct H
    end;
  try discriminate H.

(** Runs the program in the goal against a handler [h] known to answer
    ([Hans : answers h]) and to return a hypothesis ([Hsp : hears_speech
    h]). *)
Ltac answer h Hans Hsp :=
  unfold trace, result, final;
  repeat (cbn -[String.append PyStr.repeat PyStr.basename PyStr.strip];
    match goal with
    | |- context [h _ (transcribe ?m ?ps ?ts) ?w] =>
        let E := fresh "E" in
        destruct (Hsp m ps ts w) as (?hyp & ?rest & ?w' & E);
        rewrite E; clear E
    | |- context [h ?X ?c ?w] =>
        let E := fresh "E" in
        destruct (Hans X c w) as (?x & ?w' & E); rewrite E; clear E
    end);
  cbn -[String.append PyStr.repeat PyStr.basename PyStr.strip].

Lemma stub_answers : answers Stub.handler.
Proof. intros X c w. destruct c; eexists _, _; reflexivity. Qed.

Lemma stub_hears_speech : hears_speech Stub.handler.
Proof. intros m paths ts w. eexists _, _, _. reflexivity. Qed.

(** ** The inpaint operation *)

(** C1: in every run of [inpaint_audio], whatever the collaborators answer,
    a request reaches the diffusion collaborator only after exactly one ASR
    transcription of the input audio, no further transcription or inpaint
    request follows, and the request's [input_text] is the text of the
    hypothesis that this transcription returned while its [output_text] is
    the caller's target text; a run that returns made exactly one such
    request.  The operation has no parameter through which a transcript
    could be supplied. *)
Theorem inpaint_audio_transcribes_once_then_inpaints :
  forall (W : Type) (h : Handler W) (w : W) (self : PlayDiffusionInference)
         (audio_path target : string) (kw : Kwargs) (out : option string),
    let o := run h (inpaint_audio self audio_path target kw out) w in
    (forall pre p req r post,
        trace o = pre ++ EvInpaint p req r :: post ->
        count is_transcribe pre = 1 /\ count is_transcribe post = 0 /\
        count is_inpaint pre = 0 /\ count is_inpaint post = 0 /\
        exists hyp rest,
          In (EvTranscribe (asr_model self) [audio_path] true
                (inr (hyp :: rest))) pre
          /\ input_text req = hyp_text hyp
          /\ output_text req = target)
    /\ (forall path, result o = inr path ->
          count is_transcribe (trace o) = 1 /\ count is_inpaint (trace o) = 1).
Proof.
  intros W h w self audio_path target kw out o. subst o.
  unfold inpaint_audio, run_asr, inpaint_after_asr. split.
  - intros pre p req r post H.
    exec h; locate H; subst;
      (repeat split; try reflexivity;
       eexists _, _; split; [cbn [In]; auto 10 | split; reflexivity]).
  - intros path H. exec h; try discriminate H; split; reflexivity.
Qed.

Lemma inpaint_audio_transcribes_once_then_inpaints_witness :
  let o := run Stub.handler
             (inpaint_audio Stub.self "data/in.wav" "bye" no_kwargs None) 0 in
  exists req,
    nth_error (trace o) 6 = Some (EvInpaint (inpainter Stub.self) req (inr Stub.wave))
    /\ count is_transcribe (firstn 6 (trace o)) = 1
    /\ input_text req = "hello, world."
    /\ output_text req = "bye".
Proof.
  intros o.
  destruct (proj1 (inpaint_audio_transcribes_once_then_inpaints
              nat Stub.handler 0 Stub.self "data/in.wav" "bye" no_kwargs None)
              (firstn 6 (trace o)) (inpainter Stub.self)
              {| input_text := "hello, world."; output_text := "bye";
                 input_word_times := map word_time (hyp_timestamp_word Stub.hello);
                 audio := "data/in.wav"; num_steps := 30; init_temp := 1.0;
                 init_diversity := 1.0; guidance := 0.5; rescale := 0.7;
                 topk := 25 |}
              (inr Stub.wave) (skipn 7 (trace o)) eq_refl)
    as (Hone & _ & _ & _ & hyp & rest & _ & Hin & Hout).
  eexists. split; [reflexivity|]. split; [exact Hone|].
  split; reflexivity.
Defined.

(** ** Transcription *)

Lemma Forall2_map_right {A B : Type} (R : A -> B -> Prop) (f : A -> B)
    (l : list A) :
  (forall a, R a (f a)) -> Forall2 R l (map f l).
Proof.
  intros HR. induction l as [|a l IH]; simpl; constructor; auto.
Qed.

(** C3: every word timing that [run_asr] returns is the raw ASR word of the
    same position with the characters [,.?!] trimmed from both edges of the
    word text and with [start] and [end] unchanged; the token ["hello,"]
    with start 1.0 and end 1.5 becomes [{word: "hello", start: 1.0,
    end: 1.5}]. *)
Theorem run_asr_word_timings :
  word_time {| raw_word := "hello,"; raw_start := 1.0; raw_end := 1.5 |}
    = {| word := "hello"; start := 1.0; end_ := 1.5 |}
  /\ forall (W : Type) (h : Handler W) (w : W) (self : PlayDiffusionInference)
            (audio_path t1 t2 : string) (wts : list WordTiming),
      let o := run h (run_asr self audio_path) w in
      result o = inr (t1, t2, wts) ->
      exists hyp rest,
        In (EvTranscribe (asr_model self) [audio_path] true
              (inr (hyp :: rest))) (trace o)
        /\ Forall2 (fun raw wt =>
                      PyStr.trimmed ",.?!" (raw_word raw) (word wt)
                      /\ start wt = raw_start raw
                      /\ end_ wt = raw_end raw)
                   (hyp_timestamp_word hyp) wts.
Proof.
  split; [reflexivity|].
  intros W h w self audio_path t1 t2 wts o H. subst o.
  unfold run_asr in *. exec h; try discriminate H.
  injection H as <- <- <-.
  eexists _, _. split; [cbn [In]; auto|].
  apply Forall2_map_right. intros raw. unfold word_time; simpl.
  split; [apply strip_trimmed | split; reflexivity].
Qed.

Lemma run_asr_word_timings_witness :
  let o := run Stub.handler (run_asr Stub.self "data/in.wav") 0 in
  exists hyp rest,
    In (EvTranscribe (asr_model Stub.self) ["data/in.wav"] true
          (inr (hyp :: rest))) (trace o)
    /\ Forall2 (fun raw wt =>
                  PyStr.trimmed ",.?!" (raw_word raw) (word wt)
                  /\ start wt = raw_start raw
                  /\ end_ wt = raw_end raw)
               (hyp_timestamp_word hyp)
               [ {| word := "hello"; start := 1.0; end_ := 1.5 |};
                 {| word := "world"; start := 1.5; end_ := 2.25 |} ].
Proof.
  exact (proj2 run_asr_word_timings nat Stub.handler 0 Stub.self
           "data/in.wav" "hello, world." "hello, world." _ eq_refl).
Defined.

(** C9: the first two components of the triple returned by [run_asr] are
    equal; what [inpaint_audio] does after [run_asr] does not depend on the
    second component, and the [input_text] of any request it sends to the
    diffusion collaborator is the first component. *)
Theorem run_asr_returns_text_twice :
  (forall (W : Type) (h : Handler W) (w : W) (self : PlayDiffusionInference)
          (audio_path t1 t2 : string) (wts : list WordTiming),
      result (run h (run_asr self audio_path) w) = inr (t1, t2, wts) ->
      t1 = t2)
  /\ (forall self audio_path target kw out t1 t2 t2' wts,
        inpaint_after_asr self audio_path target kw out (t1, t2, wts)
        = inpaint_after_asr self audio_path target kw out (t1, t2', wts))
  /\ (forall (W : Type) (h : Handler W) (w : W) self audio_path target kw out
             t1 t2 wts p req r,
        In (EvInpaint p req r)
           (trace (run h (inpaint_after_asr self audio_path target kw out
                            (t1, t2, wts)) w)) ->
        input_text req = t1 /\ input_word_times req = wts).
Proof.
  split; [|split].
  - intros W h w self audio_path t1 t2 wts H.
    unfold run_asr in H. exec h; try discriminate H.
    now injection H as <- <- _.
  - reflexivity.
  - intros W h w self audio_path target kw out t1 t2 wts p req r H.
    unfold inpaint_after_asr in H.
    exec h; member H; injection H as _ <- _; split; reflexivity.
Qed.

Lemma run_asr_returns_text_twice_witness :
  "hello, world." = "hello, world.".
Proof.
  exact (proj1 run_asr_returns_text_twice nat Stub.handler 0 Stub.self
           "data/in.wav" "hello, world." "hello, world."
           (map word_time (hyp_timestamp_word Stub.hello)) eq_refl).
Defined.

(** ** Writing the waveform *)




(** ** The command-line entry point *)

Lemma mode_cases (m : string) :
  existsb (String.eqb m) mode_choices = true ->
  m = "inpaint" \/ m = "tts" \/ m = "asr".
Proof.
  unfold mode_choices; cbn [existsb]. intros H.
  destruct (String.eqb_spec m "inpaint"); [auto|].
  destruct (String.eqb_spec m "tts"); [auto|].
  destruct (String.eqb_spec m "asr"); [auto|discriminate H].
Qed.

(** An accepted command line: its mode is one of the three choices, its
    audio path is present and every field of the namespace is the flag or
    the flag's default. *)
Lemma parse_args_inr (cl : CommandLine) (args : Namespace) :
  parse_args cl = inr args ->
  (args_mode args = "inpaint" \/ args_mode args = "tts" \/ args_mode args = "asr")
  /\ args_mode args = or_default (cl_mode cl) "inpaint"
  /\ cl_audio cl = Some (args_audio args)
  /\ args_text args = cl_text cl
  /\ args_voice args = cl_voice cl
  /\ args_output args = cl_output cl
  /\ args_num_steps args = or_default (cl_num_steps cl) 30%Z
  /\ args_init_temp args = or_default (cl_init_temp cl) 1.0%float
  /\ args_init_diversity args = or_default (cl_init_diversity cl) 1.0%float
  /\ args_guidance args = or_default (cl_guidance cl) 0.5%float
  /\ args_rescale args = or_default (cl_rescale cl) 0.7%float
  /\ args_topk args = or_default (cl_topk cl) 25%Z.
Proof.
  unfold parse_args. intros H.
  destruct (existsb _ mode_choices) eqn:Hm; cbn [negb] in H; [|discriminate H].
  destruct (cl_audio cl) as [a|]; [|discriminate H].
  injection H as <-. cbn. split; [now apply mode_cases|].
  repeat split.
Qed.

Lemma parse_args_inl (cl : CommandLine) (e : Exn) :
  parse_args cl = inl e -> e = SystemExit 2.
Proof.
  unfold parse_args. intros H.
  destruct (negb _); [congruence|].
  destruct (cl_audio cl); [discriminate H | congruence].
Qed.

(** [main] on an accepted command line, by mode. *)
Lemma main_by_mode (cl : CommandLine) (args : Namespace) :
  parse_args cl = inr args ->
  (args_mode args = "inpaint"
   /\ main cl = (inference <- init (args_asr_model args) ;;
                 main_inpaint inference args))
  \/ (args_mode args = "tts"
      /\ main cl = (inference <- init (args_asr_model args) ;;
                    main_tts inference args))
  \/ (args_mode args = "asr"
      /\ main cl = (inference <- init (args_asr_model args) ;;
                    main_asr inference args)).
Proof.
  intros Hp. unfold main. rewrite Hp.
  destruct (parse_args_inr cl args Hp) as [[E | [E | E]] _]; rewrite E;
    [left | right; left | right; right]; split; reflexivity.
Qed.

(** Splits a statement about [main cl] into the rejected command line and
    the three modes of an accepted one. *)
Ltac by_mode cl :=
  let args := fresh "args" in
  let Hp := fresh "Hp" in
  let Hmode := fresh "Hmode" in
  let Hmain := fresh "Hmain" in
  destruct (parse_args cl) as [?e | args] eqn:Hp;
  [ unfold main in *; rewrite Hp in *
  | destruct (main_by_mode cl args Hp)
      as [[Hmode Hmain] | [[Hmode Hmain] | [Hmode Hmain]]];
    rewrite Hmain in *; clear Hmain;
    unfold init, main_inpaint, main_tts, main_asr, run_complete_pipeline,
      inpaint_audio, text_to_speech, run_asr, inpaint_after_asr in * ].

(** C5: an inpaint invocation whose collaborators answer does deliver a
    request to the diffusion collaborator (a run that succeeds delivered
    exactly one), and in every request delivered a sampling parameter whose
    flag is omitted on the command line (or whose keyword is omitted in a
    direct call of [inpaint_audio]) has its documented default:
    [num_steps=30], [init_temp=1.0], [init_diversity=1.0], [guidance=0.5],
    [rescale=0.7], [topk=25]. *)
Theorem omitted_sampling_flags_take_defaults :
  forall (W : Type) (h : Handler W) (w : W),
    (forall cl p req r,
        In (EvInpaint p req r) (trace (run h (main cl) w)) ->
        (cl_num_steps cl = None -> num_steps req = 30%Z)
        /\ (cl_init_temp cl = None -> init_temp req = 1.0%float)
        /\ (cl_init_diversity cl = None -> init_diversity req = 1.0%float)
        /\ (cl_guidance cl = None -> guidance req = 0.5%float)
        /\ (cl_rescale cl = None -> rescale req = 0.7%float)
        /\ (cl_topk cl = None -> topk req = 25%Z))
    /\ (forall self audio_path target kw out p req r,
          In (EvInpaint p req r)
             (trace (run h (inpaint_audio self audio_path target kw out) w)) ->
          (kw_num_steps kw = None -> num_steps req = 30%Z)
          /\ (kw_init_temp kw = None -> init_temp req = 1.0%float)
          /\ (kw_init_diversity kw = None -> init_diversity req = 1.0%float)
          /\ (kw_guidance kw = None -> guidance req = 0.5%float)
          /\ (kw_rescale kw = None -> rescale req = 0.7%float)
          /\ (kw_topk kw = None -> topk req = 25%Z))
    /\ (forall cl args,
          parse_args cl = inr args ->
          args_mode args = "inpaint" ->
          PyStr.truthy (args_text args) = true ->
          let o := run h (main cl) w in
          (result o = inr tt -> count is_inpaint (trace o) = 1)
          /\ (answers h -> hears_speech h ->
              result o = inr tt
              /\ exists p req wf, In (EvInpaint p req (inr wf)) (trace o)))
    /\ (forall self audio_path target kw out,
          let o := run h (inpaint_audio self audio_path target kw out) w in
          (forall path, result o = inr path ->
                        count is_inpaint (trace o) = 1)
          /\ (answers h -> hears_speech h ->
              exists p req wf, In (EvInpaint p req (inr wf)) (trace o))).
Proof.
  intros W h w. split; [|split; [|split]].
  - intros cl p req r H. by_mode cl.
    + destruct H.
    + destruct (parse_args_inr cl args Hp)
        as (_ & _ & _ & _ & _ & _ & E1 & E2 & E3 & E4 & E5 & E6).
      destruct (args_text args) as [[|c t]|];
        exec h; member H; injection H as _ <- _; cbn;
        rewrite E1, E2, E3, E4, E5, E6;
        repeat split; intros ->; reflexivity.
    + destruct (args_text args) as [[|c t]|];
        [| destruct (args_voice args) as [[|c' t']|] |];
        exec h; member H.
    + exec h; member H.
  - intros self audio_path target kw out p req r H.
    unfold inpaint_audio, run_asr, inpaint_after_asr in H.
    exec h; member H; injection H as _ <- _; cbn;
      repeat split; intros ->; reflexivity.
  - intros cl args Hp Hmode Htext o. subst o.
    destruct (main_by_mode cl args Hp)
      as [[_ Hmain] | [[E _] | [E _]]]; try congruence.
    rewrite Hmain; clear Hmain.
    unfold init, main_inpaint, run_complete_pipeline, inpaint_audio, run_asr,
      inpaint_after_asr.
    destruct (args_text args) as [[|c t]|]; try discriminate Htext. split.
    + intros H. exec h; try discriminate H; reflexivity.
    + intros Hans Hsp. answer h Hans Hsp.
      match goal with u : unit |- _ => destruct u end.
      split; [reflexivity|]. eexists _, _, _. cbn [In]. auto 20.
  - intros self audio_path target kw out o. subst o.
    unfold inpaint_audio, run_asr, inpaint_after_asr. split.
    + intros path H. exec h; try discriminate H; reflexivity.
    + intros Hans Hsp. answer h Hans Hsp.
      eexists _, _, _. cbn [In]. auto 20.
Qed.

Lemma omitted_sampling_flags_take_defaults_witness :
  let o := run Stub.handler
             (main (Stub.cl "inpaint" (Some "bye") None None)) 0 in
  result o = inr tt
  /\ exists p req wf,
      In (EvInpaint p req (inr wf)) (trace o)
      /\ num_steps req = 30%Z /\ init_temp req = 1.0%float
      /\ init_diversity req = 1.0%float /\ guidance req = 0.5%float
      /\ rescale req = 0.7%float /\ topk req = 25%Z.
Proof.
  intros o.
  destruct (omitted_sampling_flags_take_defaults nat Stub.handler 0)
    as (Hdefault & _ & Hdeliver & _).
  destruct (proj2 (Hdeliver (Stub.cl "inpaint" (Some "bye") None None) _
                     eq_refl eq_refl eq_refl)
              stub_answers stub_hears_speech)
    as (Hres & p & req & wf & Hin).
  split; [exact Hres|]. exists p, req, wf. split; [exact Hin|].
  destruct (Hdefault _ _ _ _ Hin) as (H1 & H2 & H3 & H4 & H5 & H6).
  repeat split; [apply H1 | apply H2 | apply H3 | apply H4 | apply H5
                | apply H6]; reflexivity.
Defined.

(** ** Required arguments *)

(** A falsy [--text] in inpaint or tts mode, or a falsy [--voice] in tts
    mode, is rejected once the orchestrator has been constructed. *)
Lemma main_rejects_falsy {W : Type} (h : Handler W) (w : W)
    (cl : CommandLine) (args : Namespace) :
  parse_args cl = inr args ->
  Spec.missing_required args = true ->
  Spec.rejected_after_construction args (run h (main cl) w).
Proof.
  intros Hp Hmiss.
  unfold Spec.rejected_after_construction, Spec.missing_required,
    Spec.usage_error in *.
  destruct (main_by_mode cl args Hp)
    as [[Hmode Hmain] | [[Hmode Hmain] | [Hmode Hmain]]];
    rewrite Hmain; clear Hmain; rewrite Hmode in *; cbn in Hmiss;
    unfold init, main_inpaint, main_tts.
  - destruct (args_text args) as [[|c t]|]; try discriminate Hmiss;
      exec h; (split; [reflexivity|]); eauto 8.
  - destruct (args_text args) as [[|c t]|];
      [| destruct (args_voice args) as [[|c' t']|]; try discriminate Hmiss |];
      exec h; (split; [reflexivity|]); eauto 8.
  - discriminate Hmiss.
Qed.

(** C2, as the code has it: an invocation in mode inpaint or tts without
    [--text], or in mode tts without [--voice], first constructs the
    orchestrator ([PlayDiffusion()], then the ASR model load); when both
    constructions succeed the missing-argument error naming the flag is
    raised; in every case no transcribe, inpaint or tts request is made and
    no file is written. *)
Theorem missing_argument_rejected_after_construction :
  forall (W : Type) (h : Handler W) (w : W) (cl : CommandLine)
         (args : Namespace),
    parse_args cl = inr args ->
    (args_mode args = "inpaint" /\ cl_text cl = None)
    \/ (args_mode args = "tts" /\ (cl_text cl = None \/ cl_voice cl = None)) ->
    Spec.rejected_after_construction args (run h (main cl) w).
Proof.
  intros W h w cl args Hp Hmiss.
  apply main_rejects_falsy; [exact Hp|].
  destruct (parse_args_inr cl args Hp) as (_ & _ & _ & Ht & Hv & _).
  unfold Spec.missing_required. rewrite Ht, Hv.
  destruct Hmiss as [[-> ->] | [-> [-> | ->]]]; cbn;
    [reflexivity | reflexivity | apply orb_true_r].
Qed.

Lemma missing_argument_rejected_after_construction_witness :
  Spec.rejected_after_construction
    {| args_mode := "tts"; args_audio := "data/in.wav";
       args_text := Some "bye"; args_voice := None; args_output := None;
       args_asr_model := default_asr_model; args_num_steps := 30;
       args_init_temp := 1.0; args_init_diversity := 1.0;
       args_guidance := 0.5; args_rescale := 0.7; args_topk := 25 |}
    (run Stub.handler (main (Stub.cl "tts" (Some "bye") None None)) 0).
Proof.
  apply (missing_argument_rejected_after_construction nat Stub.handler 0
           (Stub.cl "tts" (Some "bye") None None)).
  - reflexivity.
  - right. split; [reflexivity | right; reflexivity].
Defined.

(** C2 as stated fails: with [--mode inpaint --audio data/in.wav] and no
    [--text], the usage error is raised only after [PlayDiffusion()] has
    been constructed and the ASR model has been loaded. *)
Lemma collaborators_constructed_before_usage_error :
  let cl := Stub.cl "inpaint" None None None in
  let o := run Stub.handler (main cl) 0 in
  cl_text cl = None
  /\ result o = inl (ValueError "inpaint模式需要指定 --text 参数")
  /\ calls (trace o)
     = [EvNew (inr {| inpainter_ref := 0 |});
        EvRestore default_asr_model (inr {| asr_model_ref := 1 |})]
  /\ count is_call (trace o) <> 0.
Proof.
  cbn. repeat split. discriminate.
Qed.

(** C10: an empty string given for [--text], or for [--voice], runs exactly
    as the omitted flag does; in inpaint and tts mode the empty [--text],
    and in tts mode the empty [--voice], is rejected with the
    missing-argument error; with a non-empty [--text] in inpaint mode the
    pipeline is entered (the audio is transcribed once the orchestrator
    stands). *)
Theorem empty_string_counts_as_missing :
  forall (W : Type) (h : Handler W) (w : W) (cl : CommandLine),
    run h (main (with_text (Some "") cl)) w = run h (main (with_text None cl)) w
    /\ run h (main (with_voice (Some "") cl)) w
       = run h (main (with_voice None cl)) w
    /\ (forall args,
          parse_args (with_text (Some "") cl) = inr args ->
          args_mode args = "inpaint" \/ args_mode args = "tts" ->
          Spec.rejected_after_construction args
            (run h (main (with_text (Some "") cl)) w)
          /\ Spec.usage_error args
             = ValueError (args_mode args ++ "模式需要指定 --text 参数")%string)
    /\ (forall args,
          parse_args (with_voice (Some "") cl) = inr args ->
          args_mode args = "tts" ->
          Spec.rejected_after_construction args
            (run h (main (with_voice (Some "") cl)) w))
    /\ (forall args c t i m,
          parse_args (with_text (Some (String c t)) cl) = inr args ->
          args_mode args = "inpaint" ->
          let o := run h (main (with_text (Some (String c t)) cl)) w in
          In (EvNew (inr i)) (trace o) ->
          In (EvRestore (args_asr_model args) (inr m)) (trace o) ->
          count is_transcribe (trace o) = 1).
Proof.
  intros W h w cl. split; [|split; [|split; [|split]]].
  - f_equal. unfold main, parse_args; cbn.
    destruct (negb _); [reflexivity|].
    destruct (cl_audio cl); [|reflexivity]. cbn.
    repeat (destruct (String.eqb _ _); [reflexivity|]). reflexivity.
  - f_equal. unfold main, parse_args; cbn.
    destruct (negb _); [reflexivity|].
    destruct (cl_audio cl); [|reflexivity]. cbn.
    repeat (destruct (String.eqb _ _); [reflexivity|]). reflexivity.
  - intros args Hp Hmode.
    destruct (parse_args_inr _ args Hp) as (_ & _ & _ & Ht & _).
    split.
    + apply main_rejects_falsy; [assumption|].
      unfold Spec.missing_required. rewrite Ht.
      destruct Hmode as [-> | ->]; reflexivity.
    + unfold Spec.usage_error. rewrite Ht.
      destruct Hmode as [-> | ->]; reflexivity.
  - intros args Hp Hmode. apply main_rejects_falsy; [assumption|].
    destruct (parse_args_inr _ args Hp) as (_ & _ & _ & _ & Hv & _).
    unfold Spec.missing_required. rewrite Hv, Hmode. cbn.
    apply orb_true_r.
  - intros args c t i m Hp Hmode o Hnew Hres. subst o.
    destruct (parse_args_inr _ args Hp) as (_ & _ & _ & Ht & _).
    destruct (main_by_mode _ args Hp)
      as [[_ Hmain] | [[E _] | [E _]]]; try congruence.
    rewrite Hmain in *; clear Hmain.
    unfold init, main_inpaint, run_complete_pipeline, inpaint_audio, run_asr,
      inpaint_after_asr in *.
    rewrite Ht in *. cbn [cl_text with_text] in *.
    exec h; member Hnew; member Hres; reflexivity.
Qed.

Lemma empty_string_counts_as_missing_witness :
  Spec.rejected_after_construction
    {| args_mode := "tts"; args_audio := "data/in.wav";
       args_text := Some "bye"; args_voice := Some ""; args_output := None;
       args_asr_model := default_asr_model; args_num_steps := 30;
       args_init_temp := 1.0; args_init_diversity := 1.0;
       args_guidance := 0.5; args_rescale := 0.7; args_topk := 25 |}
    (run Stub.handler
       (main (with_voice (Some "") (Stub.cl "tts" (Some "bye") None None))) 0).
Proof.
  apply (proj1 (proj2 (proj2 (proj2 (empty_string_counts_as_missing
           nat Stub.handler 0 (Stub.cl "tts" (Some "bye") None None)))))).
  - reflexivity.
  - reflexivity.
Defined.

(** ** The output path *)

(** C4, as the code has it: in inpaint mode every file written goes to
    [--output] when it is given and otherwise to exactly
    ["output_inpaint_" ++ basename(audio)]; in tts mode to [--output] when
    given and otherwise to exactly ["output_tts_" ++ basename(voice)]; a
    run that succeeds wrote exactly one file and printed that path.  In asr
    mode no output path is resolved and no file is written. *)
Theorem output_path_by_mode :
  forall (W : Type) (h : Handler W) (w : W) (cl : CommandLine)
         (args : Namespace),
    parse_args cl = inr args ->
    let o := run h (main cl) w in
    (args_mode args = "inpaint" ->
       let path := or_default (cl_output cl)
                     ("output_inpaint_" ++ PyStr.basename (args_audio args))%string in
       (forall file data rate st fmt r,
           In (EvWrite file data rate st fmt r) (trace o) -> file = path)
       /\ (result o = inr tt ->
             count is_write (trace o) = 1
             /\ In (EvPrint (Line ("输出文件: " ++ path)%string)) (trace o)))
    /\ (args_mode args = "tts" ->
          forall voice, cl_voice cl = Some voice ->
            let path := or_default (cl_output cl)
                          ("output_tts_" ++ PyStr.basename voice)%string in
            (forall file data rate st fmt r,
                In (EvWrite file data rate st fmt r) (trace o) -> file = path)
            /\ (result o = inr tt ->
                  count is_write (trace o) = 1
                  /\ In (EvPrint (Line ("输出文件: " ++ path)%string)) (trace o)))
    /\ (args_mode args = "asr" -> count is_write (trace o) = 0).
Proof.
  intros W h w cl args Hp o. subst o.
  destruct (parse_args_inr cl args Hp) as (_ & _ & _ & Ht & Hv & Ho & _).
  destruct (main_by_mode cl args Hp)
    as [[Hmode Hmain] | [[Hmode Hmain] | [Hmode Hmain]]];
    rewrite Hmain; clear Hmain; rewrite Hmode;
    (split; [|split]); try (intros E; discriminate E); intros _;
    unfold init, main_inpaint, main_tts, main_asr, run_complete_pipeline,
      inpaint_audio, text_to_speech, run_asr, inpaint_after_asr;
    rewrite ?Ht, ?Hv, ?Ho.
  - split.
    + intros file data rate st fmt r H.
      destruct (cl_text cl) as [[|c t]|]; exec h; member H;
        injection H as <- _; destruct (cl_output cl); reflexivity.
    + intros H.
      destruct (cl_text cl) as [[|c t]|]; exec h; try discriminate H;
        (split; [reflexivity|]); destruct (cl_output cl);
        cbn [In or_default]; auto 20.
  - intros voice Evoice. rewrite Evoice. split.
    + intros file data rate st fmt r H.
      destruct (cl_text cl) as [[|c t]|]; [| destruct voice as [|c' t'] |];
        exec h; member H;
        injection H as <- _; destruct (cl_output cl); reflexivity.
    + intros H.
      destruct (cl_text cl) as [[|c t]|]; [| destruct voice as [|c' t'] |];
        exec h; try discriminate H;
        (split; [reflexivity|]); destruct (cl_output cl);
        cbn [In or_default]; auto 20.
  - exec h; reflexivity.
Qed.

Lemma output_path_by_mode_witness :
  let o := run Stub.handler
             (main (Stub.cl "tts" (Some "bye") (Some "voices/ref.wav") None)) 0 in
  count is_write (trace o) = 1
  /\ In (EvPrint (Line "输出文件: output_tts_ref.wav")) (trace o).
Proof.
  intros o.
  refine (proj2 (proj1 (proj2 (output_path_by_mode nat Stub.handler 0
            (Stub.cl "tts" (Some "bye") (Some "voices/ref.wav") None)
            _ eq_refl)) eq_refl "voices/ref.wav" eq_refl) eq_refl).
Defined.

(** C4 as stated fails for asr mode: [--mode asr --audio data/in.wav]
    without [--output] succeeds, writes no file at all and prints no output
    path; nothing goes to ["output_inpaint_in.wav"]. *)
Lemma asr_mode_writes_no_output :
  let cl := Stub.cl "asr" None None None in
  let o := run Stub.handler (main cl) 0 in
  cl_output cl = None
  /\ result o = inr tt
  /\ filter is_write (trace o) = []
  /\ calls (trace o)
     = [EvNew (inr {| inpainter_ref := 0 |});
        EvRestore default_asr_model (inr {| asr_model_ref := 1 |});
        EvTranscribe {| asr_model_ref := 1 |} ["data/in.wav"] true
          (inr [Stub.hello])].
Proof.
  cbn. repeat split.
Qed.

(** ** The audio flag in tts mode *)

(** C8: a command line without [--audio] is rejected by the parser in every
    mode, before anything runs; in tts mode two command lines that differ
    only in the value of [--audio] run identically: the same requests with
    the same answers, the same output, the same result. *)
Theorem tts_mode_never_reads_audio :
  forall (W : Type) (h : Handler W) (w : W) (cl : CommandLine),
    run h (main (with_audio None cl)) w = ([], inl (SystemExit 2), w)
    /\ forall a1 a2,
        cl_mode cl = Some "tts" ->
        run h (main (with_audio (Some a1) cl)) w
        = run h (main (with_audio (Some a2) cl)) w.
Proof.
  intros W h w cl. split.
  - unfold main, parse_args; cbn. now destruct (negb _).
  - intros a1 a2 Hmode. f_equal.
    unfold main, parse_args; cbn. rewrite Hmode. reflexivity.
Qed.

Lemma tts_mode_never_reads_audio_witness :
  run Stub.handler
    (main (with_audio (Some "a.wav")
             (Stub.cl "tts" (Some "bye") (Some "voices/ref.wav") None))) 0
  = run Stub.handler
      (main (with_audio (Some "dir/b.mp3")
               (Stub.cl "tts" (Some "bye") (Some "voices/ref.wav") None))) 0.
Proof.
  exact (proj2 (tts_mode_never_reads_audio nat Stub.handler 0
                  (Stub.cl "tts" (Some "bye") (Some "voices/ref.wav") None))
           "a.wav" "dir/b.mp3" eq_refl).
Defined.

(** ** The pipeline alias *)

(** C6: for all arguments, [run_complete_pipeline] returns the result (or
    raises the exception) that [inpaint_audio] does with the same
    arguments, makes the same collaborator requests and file write with the
    same answers, and leaves the collaborators in the same state; its
    standard output is that of [inpaint_audio] between a two-line banner
    and, on success, a two-line footer. *)
Theorem run_complete_pipeline_is_inpaint_audio :
  forall (W : Type) (h : Handler W) (w : W) (self : PlayDiffusionInference)
         (audio_path target_text : string) (output_path : option string)
         (kwargs : Kwargs),
    let a := run h (run_complete_pipeline self audio_path target_text
                      output_path kwargs) w in
    let b := run h (inpaint_audio self audio_path target_text kwargs
                      output_path) w in
    result a = result b
    /\ calls (trace a) = calls (trace b)
    /\ final a = final b
    /\ filter is_print (trace a)
       = [EvPrint (Line "🚀 开始完整音频编辑流程");
          EvPrint (Line (PyStr.repeat "=" 50))]
         ++ filter is_print (trace b)
         ++ match result b with
            | inl _ => []
            | inr _ => [EvPrint (Line (PyStr.repeat "=" 50));
                        EvPrint (Line "✅ 音频编辑完成!")]
            end.
Proof.
  intros W h w self audio_path target_text output_path kwargs.
  unfold run_complete_pipeline.
  remember (inpaint_audio self audio_path target_text kwargs output_path)
    as body eqn:Hbody. clear Hbody.
  cbn [bind print run trace result final fst snd].
  rewrite run_bind.
  destruct (run h body w) as [[tr r] w'] eqn:Hrun.
  unfold trace, result, final; cbn [fst snd].
  destruct r as [e | path]; cbn -[PyStr.repeat].
  - repeat split. now rewrite app_nil_r.
  - unfold calls. rewrite !filter_app. cbn -[PyStr.repeat].
    rewrite app_nil_r. repeat split.
Qed.

(** * Further properties of the script *)

(** ** Word post-processing *)

Lemma lstrip_all_in (chars s : string) :
  PyStr.all_in chars s -> PyStr.lstrip chars s = EmptyString.
Proof.
  induction s as [|c rest IH]; simpl; [reflexivity|]. intros H.
  rewrite (H c (or_introl eq_refl)). apply IH.
  intros d Hd. apply H. now right.
Qed.

Lemma lstrip_edge_free (chars s : string) :
  PyStr.edge_free chars (PyStr.first_char s) -> PyStr.lstrip chars s = s.
Proof.
  destruct s as [|c rest]; simpl; [reflexivity|]. now intros ->.
Qed.

Lemma rstrip_edge_free (chars s : string) :
  PyStr.edge_free chars (PyStr.last_char s) -> PyStr.rstrip chars s = s.
Proof.
  induction s as [|c rest IH]; [reflexivity|].
  destruct rest as [|d r].
  - simpl. now intros ->.
  - intros H. change (PyStr.rstrip chars (String c (String d r)))
      with (match PyStr.rstrip chars (String d r) with
            | EmptyString =>
                if PyStr.mem c chars then EmptyString else String c EmptyString
            | kept => String c kept
            end).
    rewrite (IH H). reflexivity.
Qed.

(** A token made only of the characters [,.?!] (the empty token included)
    is kept as a timing entry whose word is empty. *)
Theorem word_time_punctuation_only :
  forall raw : RawWord,
    PyStr.all_in ",.?!" (raw_word raw) ->
    word_time raw = {| word := ""; start := raw_start raw; end_ := raw_end raw |}.
Proof.
  intros raw H. unfold word_time, PyStr.strip.
  now rewrite (lstrip_all_in _ _ H).
Qed.

Lemma word_time_punctuation_only_witness :
  word_time {| raw_word := "?!.."; raw_start := 0.5; raw_end := 0.75 |}
  = {| word := ""; start := 0.5; end_ := 0.75 |}.
Proof.
  apply (word_time_punctuation_only
           {| raw_word := "?!.."; raw_start := 0.5; raw_end := 0.75 |}).
  intros c H. cbn in H.
  repeat (destruct H as [<- | H]; [reflexivity|]). destruct H.
Defined.

(** Only the edges are trimmed: a token whose first and last characters are
    not among [,.?!] keeps its text, whatever punctuation it has inside;
    and trimming a word that has been trimmed changes nothing. *)
Theorem word_time_keeps_inner_punctuation :
  forall raw : RawWord,
    (PyStr.edge_free ",.?!" (PyStr.first_char (raw_word raw)) ->
     PyStr.edge_free ",.?!" (PyStr.last_char (raw_word raw)) ->
     word (word_time raw) = raw_word raw)
    /\ PyStr.strip ",.?!" (word (word_time raw)) = word (word_time raw).
Proof.
  intros raw. split.
  - intros Hf Hl. unfold word_time, PyStr.strip; simpl.
    rewrite (lstrip_edge_free _ _ Hf). now apply rstrip_edge_free.
  - destruct (strip_trimmed ",.?!" (raw_word raw)) as (_ & Hf & Hl).
    unfold word_time; simpl. unfold PyStr.strip at 1.
    rewrite (lstrip_edge_free _ _ Hf). now apply rstrip_edge_free.
Qed.

Lemma word_time_keeps_inner_punctuation_witness :
  word (word_time {| raw_word := "3.14"; raw_start := 0.5; raw_end := 0.75 |})
  = "3.14".
Proof.
  apply (proj1 (word_time_keeps_inner_punctuation
           {| raw_word := "3.14"; raw_start := 0.5; raw_end := 0.75 |}));
    reflexivity.
Defined.

(** ** The default output path *)

Lemma mem_slash_cons (c : ascii) (s : string) :
  PyStr.mem "/" (String c s) = Ascii.eqb c "/" || PyStr.mem "/" s.
Proof. simpl. now rewrite Ascii.eqb_sym. Qed.

Lemma mem_append (c : ascii) (s t : string) :
  PyStr.mem c (s ++ t)%string = PyStr.mem c s || PyStr.mem c t.
Proof.
  induction s as [|d s IH]; simpl; [reflexivity|].
  now rewrite IH, orb_assoc.
Qed.

Lemma basename_from_no_slash (s cur : string) :
  PyStr.mem "/" s = false -> PyStr.basename_from cur s = cur.
Proof.
  revert cur. induction s as [|c rest IH]; intros cur; [reflexivity|].
  rewrite mem_slash_cons. intros H. apply orb_false_elim in H as [Hc Hrest].
  simpl. rewrite Hc. now apply IH.
Qed.

Lemma basename_from_slash (s cur : string) :
  PyStr.mem "/" s = true -> PyStr.basename_from cur s = PyStr.basename s.
Proof.
  unfold PyStr.basename. revert cur.
  induction s as [|c rest IH]; intros cur; [discriminate|].
  rewrite mem_slash_cons. simpl.
  destruct (Ascii.eqb c "/"); [reflexivity|]. simpl. intros H.
  rewrite (IH cur H). now rewrite (IH (String c rest) H).
Qed.

(** The base name holds no slash. *)
Lemma basename_has_no_slash (p : string) :
  PyStr.mem "/" (PyStr.basename p) = false.
Proof.
  unfold PyStr.basename. induction p as [|c rest IH]; [reflexivity|].
  simpl. destruct (Ascii.eqb c "/") eqn:Hc; [exact IH|].
  destruct (PyStr.mem "/" rest) eqn:Hrest.
  - now rewrite (basename_from_slash rest _ Hrest).
  - rewrite (basename_from_no_slash rest _ Hrest).
    now rewrite mem_slash_cons, Hc, Hrest.
Qed.

Lemma append_grows (pre s : string) :
  String.length (pre ++ s)%string = String.length pre + String.length s.
Proof. induction pre as [|c pre IH]; simpl; [|rewrite IH]; reflexivity. Qed.

Lemma append_longer (pre s : string) :
  pre <> EmptyString -> (pre ++ s)%string <> s.
Proof.
  intros Hpre E. apply (f_equal String.length) in E.
  rewrite append_grows in E.
  destruct pre; [now apply Hpre | simpl in E; lia].
Qed.

(** A path without a slash in front of the base name of [p] differs from
    [p]: either [p] has a slash, or it is its own base name and shorter. *)
Lemma prefixed_basename_differs (pre p : string) :
  pre <> EmptyString -> PyStr.mem "/" pre = false ->
  (pre ++ PyStr.basename p)%string <> p.
Proof.
  intros Hne Hpre E.
  assert (Hp : PyStr.mem "/" p = false).
  { rewrite <- E, mem_append, Hpre. apply basename_has_no_slash. }
  unfold PyStr.basename in E.
  rewrite (basename_from_no_slash p p Hp) in E.
  exact (append_longer pre p Hne E).
Qed.

(** When no output path is given, the file that [inpaint_audio] or
    [text_to_speech] writes has no directory part: it lands in the working
    directory, wherever the input lives. *)
Theorem default_output_in_working_directory :
  forall (W : Type) (h : Handler W) (w : W) (self : PlayDiffusionInference)
         (file : string) (data : list float) (rate : Z) (st : string)
         (fmt : option string) (r : Exn + unit),
    (forall audio_path target kw,
        In (EvWrite file data rate st fmt r)
           (trace (run h (inpaint_audio self audio_path target kw None) w)) ->
        PyStr.mem "/" file = false)
    /\ (forall text voice_audio_path,
          In (EvWrite file data rate st fmt r)
             (trace (run h (text_to_speech self text voice_audio_path None) w)) ->
          PyStr.mem "/" file = false).
Proof.
  intros W h w self file data rate st fmt r. split.
  - intros audio_path target kw H.
    unfold inpaint_audio, run_asr, inpaint_after_asr in H.
    exec h; member H; injection H as <- _;
      exact (eq_trans (mem_append "/" "output_inpaint_" _)
               (basename_has_no_slash audio_path)).
  - intros text voice_audio_path H. unfold text_to_speech in H.
    exec h; member H; injection H as <- _;
      exact (eq_trans (mem_append "/" "output_tts_" _)
               (basename_has_no_slash voice_audio_path)).
Qed.

Lemma default_output_in_working_directory_witness :
  PyStr.mem "/" "output_inpaint_in.wav" = false.
Proof.
  refine (proj1 (default_output_in_working_directory nat Stub.handler 0
            Stub.self "output_inpaint_in.wav" [0.0; 0.25; -0.25]%float
            16000%Z "PCM_16" None (inr tt))
            "data/in.wav" "bye" no_kwargs _).
  cbn. do 9 right. left. reflexivity.
Defined.

(** When no output path is given, the file written is never the input
    itself: [inpaint_audio] does not overwrite its audio, [text_to_speech]
    does not overwrite its reference voice. *)
Theorem default_output_never_overwrites_input :
  forall (W : Type) (h : Handler W) (w : W) (self : PlayDiffusionInference)
         (file : string) (data : list float) (rate : Z) (st : string)
         (fmt : option string) (r : Exn + unit),
    (forall audio_path target kw,
        In (EvWrite file data rate st fmt r)
           (trace (run h (inpaint_audio self audio_path target kw None) w)) ->
        file <> audio_path)
    /\ (forall text voice_audio_path,
          In (EvWrite file data rate st fmt r)
             (trace (run h (text_to_speech self text voice_audio_path None) w)) ->
          file <> voice_audio_path).
Proof.
  intros W h w self file data rate st fmt r. split.
  - intros audio_path target kw H.
    unfold inpaint_audio, run_asr, inpaint_after_asr in H.
    exec h; member H; injection H as <- _;
      (apply (prefixed_basename_differs "output_inpaint_" audio_path);
       [discriminate | reflexivity]).
  - intros text voice_audio_path H. unfold text_to_speech in H.
    exec h; member H; injection H as <- _;
      (apply (prefixed_basename_differs "output_tts_" voice_audio_path);
       [discriminate | reflexivity]).
Qed.

Lemma default_output_never_overwrites_input_witness :
  "output_tts_ref.wav" <> "ref.wav".
Proof.
  refine (proj2 (default_output_never_overwrites_input nat Stub.handler 0
            Stub.self "output_tts_ref.wav" [0.0; 0.25; -0.25]%float
            16000%Z "PCM_16" None (inr tt))
            "bye" "ref.wav" _).
  cbn. do 5 right. left. reflexivity.
Defined.

(** ** Transcription errors and the hypothesis used *)

(** [run_asr] asks the ASR model of the orchestrator exactly once, for the
    one-element batch [[audio_path]] with timestamps, and asks nothing
    else; when the model answers with an empty list the run ends in an
    [IndexError] and no transcript is printed. *)
Theorem run_asr_single_request :
  forall (W : Type) (h : Handler W) (w : W) (self : PlayDiffusionInference)
         (audio_path : string),
    let o := run h (run_asr self audio_path) w in
    (exists r,
        calls (trace o) = [EvTranscribe (asr_model self) [audio_path] true r])
    /\ (In (EvTranscribe (asr_model self) [audio_path] true (inr []))
           (trace o) ->
        result o = inl (IndexError "list index out of range")
        /\ count is_print (trace o) = 1).
Proof.
  intros W h w self audio_path o. subst o. unfold run_asr. split.
  - exec h; eexists; reflexivity.
  - intros H. exec h; member H; split; reflexivity.
Qed.

Lemma run_asr_single_request_witness :
  let silent : Handler unit :=
    fun X c u =>
      match c in CallE X return (Exn + X) * unit with
      | transcribe _ _ _ => (inr [], u)
      | _ => (inl (CollaboratorError "unused"), u)
      end in
  result (run silent (run_asr Stub.self "data/in.wav") tt)
  = inl (IndexError "list index out of range")
  /\ count is_print (trace (run silent (run_asr Stub.self "data/in.wav") tt)) = 1.
Proof.
  intros silent.
  apply (proj2 (run_asr_single_request unit silent tt Stub.self "data/in.wav")).
  cbn. right. left. reflexivity.
Defined.

(** A successful [run_asr] returns the text of the first hypothesis as the
    model gave it (the text is not trimmed, only the words are) and one
    timing per word of that hypothesis, in order; hypotheses after the first
    are ignored. *)
Theorem run_asr_uses_first_hypothesis :
  forall (W : Type) (h : Handler W) (w : W) (self : PlayDiffusionInference)
         (audio_path t1 t2 : string) (wts : list WordTiming),
    let o := run h (run_asr self audio_path) w in
    result o = inr (t1, t2, wts) ->
    exists hyp rest,
      In (EvTranscribe (asr_model self) [audio_path] true (inr (hyp :: rest)))
         (trace o)
      /\ t1 = hyp_text hyp
      /\ wts = map word_time (hyp_timestamp_word hyp)
      /\ length wts = length (hyp_timestamp_word hyp)
      /\ In (EvPrint (Line ("📝 识别结果: " ++ hyp_text hyp)%string)) (trace o).
Proof.
  intros W h w self audio_path t1 t2 wts o H. subst o.
  unfold run_asr in *. exec h; try discriminate H.
  injection H as <- _ <-. eexists _, _.
  split; [cbn [In]; auto|]. split; [reflexivity|]. split; [reflexivity|].
  split; [apply length_map | cbn [In]; auto].
Qed.

Lemma run_asr_uses_first_hypothesis_witness :
  exists hyp rest,
    In (EvTranscribe (asr_model Stub.self) ["data/in.wav"] true
          (inr (hyp :: rest)))
       (trace (run Stub.handler (run_asr Stub.self "data/in.wav") 0))
    /\ "hello, world." = hyp_text hyp
    /\ [ {| word := "hello"; start := 1.0; end_ := 1.5 |};
         {| word := "world"; start := 1.5; end_ := 2.25 |} ]
       = map word_time (hyp_timestamp_word hyp)
    /\ 2 = length (hyp_timestamp_word hyp)
    /\ In (EvPrint (Line ("📝 识别结果: " ++ hyp_text hyp)%string))
          (trace (run Stub.handler (run_asr Stub.self "data/in.wav") 0)).
Proof.
  exact (run_asr_uses_first_hypothesis nat Stub.handler 0 Stub.self
           "data/in.wav" "hello, world." "hello, world." _ eq_refl).
Defined.

(** ** Text to speech *)

(** [text_to_speech] sends exactly one request, to the orchestrator's
    PlayDiffusion object, carrying the text and the reference voice path
    unchanged; it never touches the ASR model; it writes at most once, and
    only after that request was answered. *)
Theorem text_to_speech_single_request :
  forall (W : Type) (h : Handler W) (w : W) (self : PlayDiffusionInference)
         (text voice_audio_path : string) (out : option string),
    let o := run h (text_to_speech self text voice_audio_path out) w in
    let req := {| tts_output_text := text; tts_voice := voice_audio_path |} in
    count is_transcribe (trace o) = 0
    /\ count is_inpaint (trace o) = 0
    /\ ((exists e, calls (trace o) = [EvTTS (inpainter self) req (inl e)])
        \/ (exists wf file r,
              calls (trace o)
              = [EvTTS (inpainter self) req (inr wf);
                 EvWrite file (snd wf) (fst wf) "PCM_16" None r])).
Proof.
  intros W h w self text voice_audio_path out o req. subst o req.
  unfold text_to_speech.
  exec h; (split; [reflexivity|]); (split; [reflexivity|]);
    [left | right | right]; repeat eexists.
Qed.

(** ** The parser and the construction of the orchestrator *)

(** A command line that the parser rejects (no [--audio], or a [--mode]
    outside the three choices) ends the run with status 2 before any model
    is constructed; an omitted [--mode] runs as [inpaint]; an accepted
    command line starts, in every mode, by constructing [PlayDiffusion()],
    and the only ASR checkpoint ever loaded is [--asr_model] or its
    default. *)
Theorem parser_gate_and_construction :
  forall (W : Type) (h : Handler W) (w : W) (cl : CommandLine),
    let o := run h (main cl) w in
    (forall e, parse_args cl = inl e -> o = ([], inl (SystemExit 2), w))
    /\ (forall m, cl_mode cl = Some m ->
          existsb (String.eqb m) mode_choices = false ->
          parse_args cl = inl (SystemExit 2))
    /\ run h (main (with_mode None cl)) w
       = run h (main (with_mode (Some "inpaint") cl)) w
    /\ (forall args, parse_args cl = inr args ->
          (exists r, hd_error (trace o) = Some (EvNew r))
          /\ forall path r,
              In (EvRestore path r) (trace o) ->
              path = or_default (cl_asr_model cl) default_asr_model).
Proof.
  intros W h w cl o. subst o. split; [|split; [|split]].
  - intros e Hp. unfold main. rewrite Hp.
    now rewrite (parse_args_inl cl e Hp).
  - intros m Hm Hno. unfold parse_args. rewrite Hm. cbn [or_default].
    now rewrite Hno.
  - reflexivity.
  - intros args Hp.
    assert (Hpath : args_asr_model args
                    = or_default (cl_asr_model cl) default_asr_model).
    { unfold parse_args in Hp. destruct (negb _); [discriminate Hp|].
      destruct (cl_audio cl); [|discriminate Hp]. now injection Hp as <-. }
    destruct (main_by_mode cl args Hp)
      as [[Hmode Hmain] | [[Hmode Hmain] | [Hmode Hmain]]];
      rewrite Hmain; clear Hmain; rewrite Hpath; unfold init; split.
    + exec h; eexists; reflexivity.
    + intros path r H.
      unfold main_inpaint, run_complete_pipeline, inpaint_audio, run_asr,
        inpaint_after_asr in H.
      destruct (args_text args) as [[|c t]|]; exec h; member H;
        now injection H as <- _.
    + exec h; eexists; reflexivity.
    + intros path r H. unfold main_tts, text_to_speech in H.
      destruct (args_text args) as [[|c t]|];
        [| destruct (args_voice args) as [[|c' t']|] |];
        exec h; member H; now injection H as <- _.
    + exec h; eexists; reflexivity.
    + intros path r H. unfold main_asr, run_asr in H.
      exec h; member H; now injection H as <- _.
Qed.

Lemma parser_gate_and_construction_witness :
  run Stub.handler (main (with_mode (Some "edit") (Stub.cl "asr" None None None))) 0
  = ([], inl (SystemExit 2), 0).
Proof.
  apply (proj1 (parser_gate_and_construction nat Stub.handler 0
                  (with_mode (Some "edit") (Stub.cl "asr" None None None)))
           (SystemExit 2)).
  apply (proj1 (proj2 (parser_gate_and_construction nat Stub.handler 0
                  (with_mode (Some "edit") (Stub.cl "asr" None None None))))
           "edit"); reflexivity.
Defined.

(** ** What each mode leaves alone *)

(** Every mode loads both models (the ASR checkpoint as soon as
    [PlayDiffusion()] stands), yet inpaint mode never synthesises, tts mode
    never transcribes or inpaints, and asr mode never inpaints, synthesises
    or writes a file. *)
Theorem modes_are_isolated :
  forall (W : Type) (h : Handler W) (w : W) (cl : CommandLine)
         (args : Namespace),
    parse_args cl = inr args ->
    let o := run h (main cl) w in
    (forall i, In (EvNew (inr i)) (trace o) ->
               count is_construction (trace o) = 2)
    /\ (args_mode args = "inpaint" -> count is_tts (trace o) = 0)
    /\ (args_mode args = "tts" ->
          count is_transcribe (trace o) = 0 /\ count is_inpaint (trace o) = 0)
    /\ (args_mode args = "asr" ->
          count is_inpaint (trace o) = 0 /\ count is_tts (trace o) = 0
          /\ count is_write (trace o) = 0).
Proof.
  intros W h w cl args Hp o. subst o.
  destruct (main_by_mode cl args Hp)
    as [[Hmode Hmain] | [[Hmode Hmain] | [Hmode Hmain]]];
    rewrite Hmain; clear Hmain; rewrite Hmode;
    unfold init, main_inpaint, main_tts, main_asr, run_complete_pipeline,
      inpaint_audio, text_to_speech, run_asr, inpaint_after_asr;
    (split; [intros i H | repeat split; intros; try congruence]).
  - destruct (args_text args) as [[|c t]|]; exec h; member H; reflexivity.
  - destruct (args_text args) as [[|c t]|]; exec h; reflexivity.
  - destruct (args_text args) as [[|c t]|];
      [| destruct (args_voice args) as [[|c' t']|] |];
      exec h; member H; reflexivity.
  - destruct (args_text args) as [[|c t]|];
      [| destruct (args_voice args) as [[|c' t']|] |]; exec h; reflexivity.
  - destruct (args_text args) as [[|c t]|];
      [| destruct (args_voice args) as [[|c' t']|] |]; exec h; reflexivity.
  - exec h; member H; reflexivity.
  - exec h; reflexivity.
  - exec h; reflexivity.
  - exec h; reflexivity.
Qed.

Lemma modes_are_isolated_witness :
  let o := run Stub.handler
             (main (Stub.cl "tts" (Some "bye") (Some "voices/ref.wav") None)) 0 in
  count is_transcribe (trace o) = 0 /\ count is_inpaint (trace o) = 0.
Proof.
  intros o.
  exact (proj1 (proj2 (proj2 (modes_are_isolated nat Stub.handler 0
           (Stub.cl "tts" (Some "bye") (Some "voices/ref.wav") None)
           _ eq_refl))) eq_refl).
Defined.

(** ** Flags a mode does not read *)

(** In asr mode only [--audio] and [--asr_model] matter: two command lines
    that agree on them run identically, whatever [--text], [--voice],
    [--output] and the sampling flags are. *)
Theorem asr_mode_reads_audio_and_model_only :
  forall (W : Type) (h : Handler W) (w : W) (cl1 cl2 : CommandLine),
    cl_mode cl1 = Some "asr" -> cl_mode cl2 = Some "asr" ->
    cl_audio cl1 = cl_audio cl2 ->
    cl_asr_model cl1 = cl_asr_model cl2 ->
    run h (main cl1) w = run h (main cl2) w.
Proof.
  intros W h w cl1 cl2 M1 M2 Ha Hm. f_equal.
  unfold main, parse_args. rewrite M1, M2, Ha, Hm. cbn.
  destruct (cl_audio cl2); reflexivity.
Qed.

Lemma asr_mode_reads_audio_and_model_only_witness :
  run Stub.handler (main (Stub.cl "asr" None None None)) 0
  = run Stub.handler
      (main (Stub.cl "asr" (Some "bye") (Some "v.wav") (Some "o.wav"))) 0.
Proof.
  exact (asr_mode_reads_audio_and_model_only nat Stub.handler 0
           (Stub.cl "asr" None None None)
           (Stub.cl "asr" (Some "bye") (Some "v.wav") (Some "o.wav"))
           eq_refl eq_refl eq_refl eq_refl).
Defined.

(** In tts mode the six sampling flags are not read (nor is the value of
    [--audio]): two command lines that give an audio path and agree on
    [--text], [--voice], [--output] and [--asr_model] run identically. *)
Theorem tts_mode_ignores_sampling_flags :
  forall (W : Type) (h : Handler W) (w : W) (cl1 cl2 : CommandLine),
    cl_mode cl1 = Some "tts" -> cl_mode cl2 = Some "tts" ->
    cl_audio cl1 <> None -> cl_audio cl2 <> None ->
    cl_text cl1 = cl_text cl2 ->
    cl_voice cl1 = cl_voice cl2 ->
    cl_output cl1 = cl_output cl2 ->
    cl_asr_model cl1 = cl_asr_model cl2 ->
    run h (main cl1) w = run h (main cl2) w.
Proof.
  intros W h w cl1 cl2 M1 M2 A1 A2 Ht Hv Ho Hm. f_equal.
  unfold main, parse_args. rewrite M1, M2, Ht, Hv, Ho, Hm. cbn.
  destruct (cl_audio cl1); [|contradiction].
  destruct (cl_audio cl2); [|contradiction].
  reflexivity.
Qed.

Lemma tts_mode_ignores_sampling_flags_witness :
  let cl := Stub.cl "tts" (Some "bye") (Some "voices/ref.wav") None in
  let cl' :=
    {| cl_mode := Some "tts"; cl_audio := Some "other.wav";
       cl_text := Some "bye"; cl_voice := Some "voices/ref.wav";
       cl_output := None; cl_asr_model := None; cl_num_steps := Some 5%Z;
       cl_init_temp := Some 2.0%float; cl_init_diversity := None;
       cl_guidance := Some 3.0%float; cl_rescale := None;
       cl_topk := Some 1%Z |} in
  run Stub.handler (main cl) 0 = run Stub.handler (main cl') 0.
Proof.
  intros cl cl'.
  apply (tts_mode_ignores_sampling_flags nat Stub.handler 0 cl cl');
    try reflexivity; discriminate.
Defined.

(** Outside tts mode [--voice] is never read: changing it changes nothing
    of an inpaint or asr run. *)
Theorem voice_read_in_tts_mode_only :
  forall (W : Type) (h : Handler W) (w : W) (cl : CommandLine)
         (v : option string),
    or_default (cl_mode cl) "inpaint" <> "tts" ->
    run h (main (with_voice v cl)) w = run h (main cl) w.
Proof.
  intros W h w cl v Hmode. f_equal.
  unfold main, parse_args; cbn.
  destruct (negb _); [reflexivity|].
  destruct (cl_audio cl); [|reflexivity]. cbn.
  destruct (String.eqb _ "asr"); [reflexivity|].
  destruct (String.eqb _ "inpaint"); [reflexivity|].
  destruct (String.eqb_spec (or_default (cl_mode cl) "inpaint") "tts");
    [contradiction | reflexivity].
Qed.

Lemma voice_read_in_tts_mode_only_witness :
  run Stub.handler
    (main (with_voice (Some "v.wav") (Stub.cl "inpaint" (Some "bye") None None))) 0
  = run Stub.handler (main (Stub.cl "inpaint" (Some "bye") None None)) 0.
Proof.
  apply (voice_read_in_tts_mode_only nat Stub.handler 0
           (Stub.cl "inpaint" (Some "bye") None None) (Some "v.wav")).
  discriminate.
Defined.

(** ** Sampling flags that are given *)

(** A sampling flag given on the command line reaches the diffusion
    collaborator as it is: no range is checked, so zero or negative step
    counts and top-k values go through. *)
Theorem given_sampling_flags_pass_unchecked :
  forall (W : Type) (h : Handler W) (w : W) (cl : CommandLine)
         (p : Inpainter) (req : InpaintInput) (r : Exn + Waveform),
    In (EvInpaint p req r) (trace (run h (main cl) w)) ->
    (forall n, cl_num_steps cl = Some n -> num_steps req = n)
    /\ (forall x, cl_init_temp cl = Some x -> init_temp req = x)
    /\ (forall x, cl_init_diversity cl = Some x -> init_diversity req = x)
    /\ (forall x, cl_guidance cl = Some x -> guidance req = x)
    /\ (forall x, cl_rescale cl = Some x -> rescale req = x)
    /\ (forall n, cl_topk cl = Some n -> topk req = n).
Proof.
  intros W h w cl p req r H. by_mode cl.
  - destruct H.
  - destruct (parse_args_inr cl args Hp)
      as (_ & _ & _ & _ & _ & _ & E1 & E2 & E3 & E4 & E5 & E6).
    destruct (args_text args) as [[|c t]|];
      exec h; member H; injection H as _ <- _; cbn;
      rewrite E1, E2, E3, E4, E5, E6;
      repeat split; intros v ->; reflexivity.
  - destruct (args_text args) as [[|c t]|];
      [| destruct (args_voice args) as [[|c' t']|] |];
      exec h; member H.
  - exec h; member H.
Qed.

Lemma given_sampling_flags_pass_unchecked_witness :
  let cl :=
    {| cl_mode := None; cl_audio := Some "data/in.wav";
       cl_text := Some "bye"; cl_voice := None; cl_output := None;
       cl_asr_model := None; cl_num_steps := Some (-3)%Z;
       cl_init_temp := None; cl_init_diversity := None;
       cl_guidance := None; cl_rescale := None; cl_topk := Some 0%Z |} in
  exists req,
    nth_error (trace (run Stub.handler (main cl) 0)) 11
    = Some (EvInpaint {| inpainter_ref := 0 |} req (inr Stub.wave))
    /\ num_steps req = (-3)%Z /\ topk req = 0%Z.
Proof.
  intros cl. eexists. split; [reflexivity|].
  assert (Hin : In (EvInpaint {| inpainter_ref := 0 |}
                    {| input_text := "hello, world."; output_text := "bye";
                       input_word_times :=
                         map word_time (hyp_timestamp_word Stub.hello);
                       audio := "data/in.wav"; num_steps := (-3)%Z;
                       init_temp := 1.0; init_diversity := 1.0;
                       guidance := 0.5; rescale := 0.7; topk := 0%Z |}
                    (inr Stub.wave))
                 (trace (run Stub.handler (main cl) 0))).
  { cbn. do 11 right. left. reflexivity. }
  destruct (given_sampling_flags_pass_unchecked nat Stub.handler 0 cl _ _ _ Hin)
    as (Hn & _ & _ & _ & _ & Hk).
  split; [exact (Hn _ eq_refl) | exact (Hk _ eq_refl)].
Defined.

(** ** What a successful run does, end to end *)

(** A successful inpaint-mode run makes exactly five requests, in this
    order: construct [PlayDiffusion()], load the ASR checkpoint, transcribe
    the audio with the model just loaded, inpaint with the object just
    constructed (source text from the transcript, target text from
    [--text], timings trimmed, sampling values from the namespace), and
    write the returned waveform. *)
Theorem inpaint_mode_success_sequence :
  forall (W : Type) (h : Handler W) (w : W) (cl : CommandLine)
         (args : Namespace),
    parse_args cl = inr args ->
    args_mode args = "inpaint" ->
    let o := run h (main cl) w in
    result o = inr tt ->
    exists text i m hyp rest wf,
      args_text args = Some text /\ text <> ""
      /\ calls (trace o)
         = [EvNew (inr i);
            EvRestore (args_asr_model args) (inr m);
            EvTranscribe m [args_audio args] true (inr (hyp :: rest));
            EvInpaint i
              {| input_text := hyp_text hyp;
                 output_text := text;
                 input_word_times := map word_time (hyp_timestamp_word hyp);
                 audio := args_audio args;
                 num_steps := args_num_steps args;
                 init_temp := args_init_temp args;
                 init_diversity := args_init_diversity args;
                 guidance := args_guidance args;
                 rescale := args_rescale args;
                 topk := args_topk args |} (inr wf);
            EvWrite (or_default (args_output args)
                       ("output_inpaint_" ++ PyStr.basename (args_audio args))%string)
              (snd wf) (fst wf) "PCM_16" None (inr tt)].
Proof.
  intros W h w cl args Hp Hmode o H. subst o.
  destruct (main_by_mode cl args Hp)
    as [[_ Hmain] | [[E _] | [E _]]]; try congruence.
  rewrite Hmain in *; clear Hmain.
  unfold init, main_inpaint, run_complete_pipeline, inpaint_audio, run_asr,
    inpaint_after_asr in *.
  destruct (args_text args) as [[|c t]|]; exec h; try discriminate H.
  match goal with u : unit |- _ => destruct u end.
  destruct (args_output args);
    eexists _, _, _, _, _, _;
    (split; [reflexivity|]); (split; [discriminate|]); reflexivity.
Qed.

Lemma inpaint_mode_success_sequence_witness :
  count is_call
    (trace (run Stub.handler
              (main (Stub.cl "inpaint" (Some "bye") None None)) 0)) = 5.
Proof.
  destruct (inpaint_mode_success_sequence nat Stub.handler 0
              (Stub.cl "inpaint" (Some "bye") None None) _
              eq_refl eq_refl eq_refl)
    as (text & i & m & hyp & rest & wf & _ & _ & Hcalls).
  unfold count. fold (calls (trace (run Stub.handler
    (main (Stub.cl "inpaint" (Some "bye") None None)) 0))).
  rewrite Hcalls. reflexivity.
Defined.

(** A successful tts-mode run makes exactly four requests, in this order:
    construct [PlayDiffusion()], load the ASR checkpoint (which it never
    uses), synthesise [--text] in the voice of [--voice] with the object
    just constructed, and write the returned waveform. *)
Theorem tts_mode_success_sequence :
  forall (W : Type) (h : Handler W) (w : W) (cl : CommandLine)
         (args : Namespace),
    parse_args cl = inr args ->
    args_mode args = "tts" ->
    let o := run h (main cl) w in
    result o = inr tt ->
    exists text voice i m wf,
      args_text args = Some text /\ text <> ""
      /\ args_voice args = Some voice /\ voice <> ""
      /\ calls (trace o)
         = [EvNew (inr i);
            EvRestore (args_asr_model args) (inr m);
            EvTTS i {| tts_output_text := text; tts_voice := voice |} (inr wf);
            EvWrite (or_default (args_output args)
                       ("output_tts_" ++ PyStr.basename voice)%string)
              (snd wf) (fst wf) "PCM_16" None (inr tt)].
Proof.
  intros W h w cl args Hp Hmode o H. subst o.
  destruct (main_by_mode cl args Hp)
    as [[E _] | [[_ Hmain] | [E _]]]; try congruence.
  rewrite Hmain in *; clear Hmain.
  unfold init, main_tts, text_to_speech in *.
  destruct (args_text args) as [[|c t]|];
    [| destruct (args_voice args) as [[|c' t']|] |];
    exec h; try discriminate H.
  match goal with u : unit |- _ => destruct u end.
  destruct (args_output args);
    eexists _, _, _, _, _;
    (split; [reflexivity|]); (split; [discriminate|]);
    (split; [reflexivity|]); (split; [discriminate|]); reflexivity.
Qed.

Lemma tts_mode_success_sequence_witness :
  count is_call
    (trace (run Stub.handler
              (main (Stub.cl "tts" (Some "bye") (Some "voices/ref.wav") None)) 0))
  = 4.
Proof.
  destruct (tts_mode_success_sequence nat Stub.handler 0
              (Stub.cl "tts" (Some "bye") (Some "voices/ref.wav") None) _
              eq_refl eq_refl eq_refl)
    as (text & voice & i & m & wf & _ & _ & _ & _ & Hcalls).
  unfold count. fold (calls (trace (run Stub.handler
    (main (Stub.cl "tts" (Some "bye") (Some "voices/ref.wav") None)) 0))).
  rewrite Hcalls. reflexivity.
Defined.

(** A successful asr-mode run constructs both models, transcribes the
    audio once, and prints the transcript text and then the trimmed word
    timings; it asks nothing else. *)
Theorem asr_mode_success_sequence :
  forall (W : Type) (h : Handler W) (w : W) (cl : CommandLine)
         (args : Namespace),
    parse_args cl = inr args ->
    args_mode args = "asr" ->
    let o := run h (main cl) w in
    result o = inr tt ->
    exists i m hyp rest front,
      calls (trace o)
      = [EvNew (inr i);
         EvRestore (args_asr_model args) (inr m);
         EvTranscribe m [args_audio args] true (inr (hyp :: rest))]
      /\ trace o
         = front
           ++ [EvPrint (Line ("识别文本: " ++ hyp_text hyp)%string);
               EvPrint (LineRepr "词时间戳: "
                          (map word_time (hyp_timestamp_word hyp)))].
Proof.
  intros W h w cl args Hp Hmode o H. subst o.
  destruct (main_by_mode cl args Hp)
    as [[E _] | [[E _] | [_ Hmain]]]; try congruence.
  rewrite Hmain in *; clear Hmain.
  unfold init, main_asr, run_asr in *.
  exec h; try discriminate H.
  eexists _, _, _, _, [_; _; _; _; _; _].
  split; reflexivity.
Qed.

Lemma asr_mode_success_sequence_witness :
  count is_call
    (trace (run Stub.handler (main (Stub.cl "asr" None None None)) 0)) = 3.
Proof.
  destruct (asr_mode_success_sequence nat Stub.handler 0
              (Stub.cl "asr" None None None) _ eq_refl eq_refl eq_refl)
    as (i & m & hyp & rest & front & Hcalls & _).
  unfold count. fold (calls (trace (run Stub.handler
    (main (Stub.cl "asr" None None None)) 0))).
  rewrite Hcalls. reflexivity.
Defined.

(** ** Running the script without arguments *)

(** With at least one argument the script is [main].  With none it never
    reaches the parser, so the missing [--audio] is not reported and the
    command line plays no part: it loads the default ASR checkpoint, sends
    the built-in text with the built-in reference voice to the synthesiser
    and writes to ["output_tts_test.wav"], transcribing and inpainting
    nothing.  A run that succeeds made exactly these four requests, and a
    run in which every collaborator answers succeeds. *)
Theorem script_without_arguments_runs_self_test :
  forall (W : Type) (h : Handler W) (w : W) (cl : CommandLine),
    (forall argc, argc <> 1 -> run h (script argc cl) w = run h (main cl) w)
    /\ let o := run h (script 1 cl) w in
       (forall cl', run h (script 1 cl') w = o)
       /\ count is_transcribe (trace o) = 0
       /\ count is_inpaint (trace o) = 0
       /\ (forall path r, In (EvRestore path r) (trace o) ->
                          path = default_asr_model)
       /\ (forall p req r,
              In (EvTTS p req r) (trace o) ->
              req = {| tts_output_text := self_test_text;
                       tts_voice := self_test_voice |})
       /\ (forall file data rate st fmt r,
              In (EvWrite file data rate st fmt r) (trace o) ->
              file = "output_tts_test.wav")
       /\ (result o = inr tt ->
           exists i m wf,
             calls (trace o)
             = [EvNew (inr i);
                EvRestore default_asr_model (inr m);
                EvTTS i {| tts_output_text := self_test_text;
                           tts_voice := self_test_voice |} (inr wf);
                EvWrite "output_tts_test.wav" (snd wf) (fst wf) "PCM_16" None
                  (inr tt)])
       /\ (answers h -> result o = inr tt).
Proof.
  intros W h w cl. split.
  - intros argc Hargc. unfold script.
    destruct (Nat.eqb_spec argc 1); [contradiction | reflexivity].
  - cbn zeta. split; [reflexivity|].
    unfold script, init, text_to_speech; cbn [Nat.eqb].
    split; [|split; [|split; [|split; [|split; [|split]]]]].
    + exec h; reflexivity.
    + exec h; reflexivity.
    + intros path r H. exec h; member H; now injection H as <- _.
    + intros p req r H. exec h; member H; now injection H as _ <- _.
    + intros file data rate st fmt r H.
      exec h; member H; now injection H as <- _.
    + intros H. exec h; try discriminate H.
      match goal with u : unit |- _ => destruct u end.
      eexists _, _, _. reflexivity.
    + intros Hans. answer h Hans Hans. reflexivity.
Qed.

Lemma script_without_arguments_runs_self_test_witness :
  let o := run Stub.handler (script 1 (Stub.cl "asr" None None None)) 0 in
  result o = inr tt
  /\ exists i m wf,
      calls (trace o)
      = [EvNew (inr i);
         EvRestore default_asr_model (inr m);
         EvTTS i {| tts_output_text := self_test_text;
                    tts_voice := self_test_voice |} (inr wf);
         EvWrite "output_tts_test.wav" (snd wf) (fst wf) "PCM_16" None
           (inr tt)].
Proof.
  intros o.
  destruct (proj2 (script_without_arguments_runs_self_test nat Stub.handler 0
                     (Stub.cl "asr" None None None)))
    as (_ & _ & _ & _ & _ & _ & Hcalls & Hlive).
  split; [exact (Hlive stub_answers)|].
  exact (Hcalls (Hlive stub_answers)).
Defined.

(** ** The returned path *)

(** The path that [inpaint_audio], [run_complete_pipeline] or
    [text_to_speech] returns is the path of a write that succeeded: a path
    is never reported for a file that was not written. *)
Theorem returned_path_was_written :
  forall (W : Type) (h : Handler W) (w : W) (self : PlayDiffusionInference)
         (out : option string) (path : string),
    (forall audio_path target kw,
        let o := run h (inpaint_audio self audio_path target kw out) w in
        result o = inr path ->
        exists data rate,
          In (EvWrite path data rate "PCM_16" None (inr tt)) (trace o))
    /\ (forall audio_path target kw,
          let o := run h (run_complete_pipeline self audio_path target out kw) w in
          result o = inr path ->
          exists data rate,
            In (EvWrite path data rate "PCM_16" None (inr tt)) (trace o))
    /\ (forall text voice_audio_path,
          let o := run h (text_to_speech self text voice_audio_path out) w in
          result o = inr path ->
          exists data rate,
            In (EvWrite path data rate "PCM_16" None (inr tt)) (trace o)).
Proof.
  intros W h w self out path. split; [|split].
  - intros audio_path target kw o H. subst o.
    unfold inpaint_audio, run_asr, inpaint_after_asr in *.
    exec h; try discriminate H.
    match goal with u : unit |- _ => destruct u end.
    injection H as <-. eexists _, _. cbn [In]. auto 12.
  - intros audio_path target kw o H. subst o.
    unfold run_complete_pipeline, inpaint_audio, run_asr,
      inpaint_after_asr in *.
    exec h; try discriminate H.
    match goal with u : unit |- _ => destruct u end.
    injection H as <-. eexists _, _. cbn [In]. auto 14.
  - intros text voice_audio_path o H. subst o. unfold text_to_speech in *.
    exec h; try discriminate H.
    match goal with u : unit |- _ => destruct u end.
    injection H as <-. eexists _, _. cbn [In]. auto 12.
Qed.

Lemma returned_path_was_written_witness :
  exists data rate,
    In (EvWrite "out/x.wav" data rate "PCM_16" None (inr tt))
       (trace (run Stub.handler
                 (text_to_speech Stub.self "bye" "voices/ref.wav"
                    (Some "out/x.wav")) 0)).
Proof.
  exact (proj2 (proj2 (returned_path_was_written nat Stub.handler 0 Stub.self
                  (Some "out/x.wav") "out/x.wav"))
           "bye" "voices/ref.wav" eq_refl).
Defined.
